(** * bot.py: the data-collection and search dialogues

    A shallow embedding of [src/bot.py].  Every handler of the module is a
    program in a small state-and-exception monad: the state is the user's
    session dictionary ([context.user_data]) together with the chronological
    list of everything the handler did to the outside world (replies sent,
    rows appended, searches issued, log records).  The two external
    collaborators that can fail at call time, the worksheet and the search
    tool, are parameters; the messaging transport is recorded in the trace
    and is taken to deliver.  The dispatch of updates follows the
    conversation handlers that [main] registers: first for one chat of the
    user, then for all the chats of the user side by side, which share the
    session. *)

From Stdlib Require Import Ascii.
From stdpp Require Import gmap strings list fin_maps.

(** ** Values handed to and returned by the handlers *)

(** The conversation states of the module: [GET_DATA] for the data
    collection conversation, the two search states, and
    [ConversationHandler.END]. *)
Inductive State : Type :=
  | GET_DATA
  | ASKING_FOR_SEARCH_QUERY
  | RECEIVING_SEARCH_QUERY
  | END.

#[global] Instance State_eq_dec : EqDecision State.
Proof. solve_decision. Defined.

(** An exception is represented by the text [str(e)] that the handlers
    interpolate into their log records.  Only instances of [Exception] are
    modelled, which is what [except Exception] catches. *)
Definition exn : Type := string.

Record InlineKeyboardButton : Type :=
  { label : string; callback_data : string }.

(** [InlineKeyboardMarkup(keyboard)]: rows of buttons. *)
Definition InlineKeyboardMarkup : Type := list (list InlineKeyboardButton).

(** One record of a search result set ([None] is Python's [None]). *)
Record SearchResult : Type :=
  { source_title : option string; url : option string; snippet : option string }.

(** One element of the list returned by [google_search]. *)
Record SearchResults : Type := { results : list SearchResult }.

(** Everything a handler can do to the outside world. *)
Inductive Effect : Type :=
  | ReplyHtml (text : string)
  | ReplyText (text : string) (reply_markup : option InlineKeyboardMarkup)
  | Answer
  | EditMessageText (text : string)
  | AppendRow (row : list string)
  | GoogleSearch (queries : list string)
  | LogInfo (text : string)
  | LogInfoRow (text : string) (row : list string)
  | LogError (text : string).

(** ** The world a handler runs in *)

(** [user_data] is the per-user dictionary of the framework; the module only
    ever stores lists of strings in it, under ['current_data']. *)
Record World : Type :=
  { user_data : gmap string (list string);
    trace : list Effect }.

Definition current_data : string := "current_data".

(** The specification's [pendingEntries]: the list stored under
    ['current_data'], empty when the key is missing. *)
Definition pendingEntries (ud : gmap string (list string)) : list string :=
  default [] (ud !! current_data).

(** The rows handed to [append_row], oldest first. *)
Fixpoint append_calls (t : list Effect) : list (list string) :=
  match t with
  | [] => []
  | AppendRow row :: t' => row :: append_calls t'
  | _ :: t' => append_calls t'
  end.

(** The answer of an external call. *)
Inductive Outcome (A : Type) : Type :=
  | Returns (a : A)
  | Raises (e : exn).
Arguments Returns {A} a.
Arguments Raises {A} e.

(** A connected worksheet: given everything that happened so far and the
    row, [append_row] either returns or raises. *)
Definition Worksheet : Type := list Effect -> list string -> Outcome unit.

(** What lies outside the module: the module-level [worksheet] ([None] when
    the connection failed at import time; a worksheet object is truthy),
    the search tool, and the HTML mention of the user talking to the bot. *)
Record Env : Type :=
  { worksheet : option Worksheet;
    google_search : list Effect -> list string -> Outcome (list SearchResults);
    mention_html : string }.

(** ** The handler monad

    A computation transforms the world and either returns a value or raises;
    as in Python, what was done before a [raise] stays done. *)
Definition M (A : Type) : Type := World -> Outcome A * World.

Definition ret {A} (a : A) : M A := fun w => (Returns a, w).

Definition bind {A B} (m : M A) (k : A -> M B) : M B :=
  fun w => match m w with
           | (Returns a, w') => k a w'
           | (Raises e, w') => (Raises e, w')
           end.

Definition raise {A} (e : exn) : M A := fun w => (Raises e, w).

(** [try: body  except Exception as e: handler e]. *)
Definition try_except {A} (body : M A) (handler : exn -> M A) : M A :=
  fun w => match body w with
           | (Returns a, w') => (Returns a, w')
           | (Raises e, w') => handler e w'
           end.

Declare Scope handler_scope.
Delimit Scope handler_scope with handler.
Notation "x <- m ;; k" := (bind m (fun x => k))
  (at level 20, m at level 99, k at level 200, only parsing) : handler_scope.
Notation "m ;; k" := (bind m (fun _ => k))
  (at level 100, k at level 200, only parsing, right associativity) : handler_scope.
Local Open Scope handler_scope.

(** Record an effect that cannot fail. *)
Definition emit (e : Effect) : M unit :=
  fun w => (Returns tt, {| user_data := user_data w; trace := trace w ++ [e] |}).

Definition get_user_data : M (gmap string (list string)) :=
  fun w => (Returns (user_data w), w).

Definition modify_user_data
    (f : gmap string (list string) -> gmap string (list string)) : M unit :=
  fun w => (Returns tt, {| user_data := f (user_data w); trace := trace w |}).

(** Run an external call: the call is recorded, then its answer, computed
    from the trace before the call, is returned or raised. *)
Definition call {A} (e : Effect) (answer : list Effect -> Outcome A) : M A :=
  fun w => let w' := {| user_data := user_data w; trace := trace w ++ [e] |} in
           match answer (trace w) with
           | Returns a => (Returns a, w')
           | Raises x => (Raises x, w')
           end.

(** ** Text helpers *)

Definition nl : string := String (ascii_of_nat 10) EmptyString.

(** [s or 'N/A']: [None] and the empty string are both falsy. *)
Definition or_NA (s : option string) : string :=
  match s with
  | Some (String c r) => String c r
  | _ => "N/A"
  end.

(** [str.lower()] on the characters a bot command is made of (Latin
    letters, digits and the underscore). *)
Definition lower_ascii (c : ascii) : ascii :=
  let n := nat_of_ascii c in
  if (65 <=? n) && (n <=? 90) then ascii_of_nat (n + 32) else c.

Fixpoint lower (s : string) : string :=
  match s with
  | EmptyString => EmptyString
  | String c s' => String (lower_ascii c) (lower s')
  end.

(** [user_data[key]]: a missing key is a [KeyError]. *)
Definition getitem (key : string) : M (list string) :=
  ud <- get_user_data;;
  match ud !! key with
  | Some v => ret v
  | None => raise ("KeyError: " +:+ key)
  end.

(** ** [update.message]

    The callbacks of commands and of text messages reach the message through
    [update.message].  That attribute is [None] when the update is an edited
    message, and then every attribute access on it raises.  A message that
    is present is represented by its text. *)

Definition AttributeError (attribute : string) : exn :=
  "AttributeError: 'NoneType' object has no attribute '" +:+ attribute +:+ "'".

(** [update.message.text] *)
Definition message_text (message : option string) : M string :=
  match message with
  | Some text => ret text
  | None => raise (AttributeError "text")
  end.

(** [update.message.reply_text(text, reply_markup=reply_markup)] *)
Definition reply_text (message : option string) (text : string)
    (reply_markup : option InlineKeyboardMarkup) : M unit :=
  match message with
  | Some _ => emit (ReplyText text reply_markup)
  | None => raise (AttributeError "reply_text")
  end.

(** [update.message.reply_html(text)] *)
Definition reply_html (message : option string) (text : string) : M unit :=
  match message with
  | Some _ => emit (ReplyHtml text)
  | None => raise (AttributeError "reply_html")
  end.

(** ** The handlers

    Each handler takes the part of the update it reads: [update.message]
    for the handlers of commands and text messages, the data of
    [update.callback_query] for [data_button]. *)

Section Handlers.

Context (env : Env).

(** *** Data collection *)

(** [start]: greets, shows the first keyboard, moves to [GET_DATA].  The
    session dictionary is not touched. *)
Definition start (message : option string) : M (option State) :=
  reply_html message
    ("Hi " +:+ mention_html env
     +:+ "! I'm a bot to help you collect data for your AI model."
     +:+ "Send me the data you want to add to the dataset. Type /cancel to stop at any time.");;
  let keyboard :=
    [ [ {| label := "Submit Data Point"; callback_data := "submit_data" |};
        {| label := "Cancel"; callback_data := "cancel_submission" |} ] ] in
  let reply_markup := keyboard in
  reply_text message "Please select an action:" (Some reply_markup);;
  ret (Some GET_DATA).

(** [get_data]: creates the list on first use, appends the message text. *)
Definition get_data (message : option string) : M (option State) :=
  data_point <- message_text message;;
  ud <- get_user_data;;
  match ud !! current_data with
  | None => modify_user_data (insert current_data [])
  | Some _ => ret tt
  end;;
  l <- getitem current_data;;
  modify_user_data (insert current_data (l ++ [data_point]));;
  reply_text message "Received your data point. Add another one or use the buttons." None;;
  let keyboard :=
    [ [ {| label := "Add More Data"; callback_data := "add_more_data" |};
        {| label := "Finish Submission"; callback_data := "finish_submission" |};
        {| label := "Cancel"; callback_data := "cancel_submission" |} ] ] in
  let reply_markup := keyboard in
  reply_text message "What would you like to do next?" (Some reply_markup);;
  ret (Some GET_DATA).

(** ['current_data' in user_data and user_data['current_data']]: the key is
    present and its list is not empty. *)
Definition has_current_data (ud : gmap string (list string)) : bool :=
  match ud !! current_data with
  | Some (_ :: _) => true
  | _ => false
  end.

(** [data_button]: the inline keyboard.  A callback datum that matches none
    of the branches falls off the end of the function, which returns
    [None]. *)
Definition data_button (data : string) : M (option State) :=
  emit Answer;;
  if String.eqb data "submit_data" || String.eqb data "add_more_data" then
    emit (EditMessageText "Okay, send me the data point.");;
    ret (Some GET_DATA)
  else if String.eqb data "finish_submission" then
    ud <- get_user_data;;
    (if has_current_data ud then
       match worksheet env with
       | Some ws =>
           try_except
             (row <- getitem current_data;;
              call (AppendRow row) (fun t => ws t row);;
              emit (EditMessageText "Data successfully added to the dataset!");;
              logged <- getitem current_data;;
              emit (LogInfoRow "Data added to sheet: " logged))
             (fun e =>
                emit (EditMessageText "Sorry, there was an error adding data to the sheet.");;
                emit (LogError ("Error appending data to Google Sheet: " +:+ e)))
       | None =>
           emit (EditMessageText "Sorry, could not connect to Google Sheets. Data not saved.")
       end;;
       modify_user_data (delete current_data)
     else
       emit (EditMessageText "No data collected yet."));;
    ret (Some END)
  else if String.eqb data "cancel_submission" then
    modify_user_data (delete current_data);;
    emit (EditMessageText "Data submission cancelled.");;
    ret (Some END)
  else
    ret None.

(** [cancel_data_collection]: the [/cancel] fallback.  The entries are
    removed before the message is touched. *)
Definition cancel_data_collection (message : option string) : M (option State) :=
  modify_user_data (delete current_data);;
  reply_text message "Data submission cancelled. Bye!" None;;
  ret (Some END).

(** *** Search *)

Definition search_command (message : option string) : M (option State) :=
  reply_text message "What would you like to search for?" None;;
  ret (Some RECEIVING_SEARCH_QUERY).

(** The body of the [for result in ...] loop: three [+=] per record. *)
Definition render_step (reply_text : string) (result : SearchResult) : string :=
  let reply_text := reply_text +:+ ("Title: " +:+ or_NA (source_title result) +:+ nl) in
  let reply_text := reply_text +:+ ("URL: " +:+ or_NA (url result) +:+ nl) in
  reply_text +:+ ("Snippet: " +:+ or_NA (snippet result) +:+ nl +:+ nl).

(** The text sent for what [google_search] returned. *)
Definition render_reply (search_results : list SearchResults) : string :=
  match search_results with
  | first :: _ =>
      match results first with
      | _ :: _ => fold_left render_step (results first) ("Search Results:" +:+ nl +:+ nl)
      | [] => "No search results found."
      end
  | [] => "No search results found."
  end.

(** [perform_search]: one query, one reply; the whole of the search and the
    rendering sits inside the [try]. *)
Definition perform_search (message : option string) : M (option State) :=
  search_query <- message_text message;;
  reply_text message ("Searching for '" +:+ search_query +:+ "'...") None;;
  try_except
    (search_results <- call (GoogleSearch [search_query])
                            (fun t => google_search env t [search_query]);;
     let text := render_reply search_results in
     reply_text message text None)
    (fun e =>
       emit (LogError ("Error during search: " +:+ e));;
       reply_text message "Sorry, an error occurred while performing the search." None);;
  ret (Some END).

Definition cancel_search (message : option string) : M (option State) :=
  reply_text message "Search cancelled." None;;
  ret (Some END).

End Handlers.

(** ** Module start-up *)

(** The module-level [try] around the spreadsheet connection: the whole
    sequence of client calls either yields the worksheet or raises, and a
    failure leaves the global [worksheet] at [None]. *)
Definition connect_worksheet (connection : Outcome Worksheet)
    : option Worksheet * list Effect :=
  match connection with
  | Returns ws => (Some ws, [LogInfo "Successfully connected to Google Sheets."])
  | Raises e => (None, [LogError ("Error connecting to Google Sheets: " +:+ e)])
  end.

(** ** The wiring of [main] *)

(** What reaches the handlers registered by [main]: a new message that is
    a command ([/start], [/START], ...: [name] is the word after the slash),
    a new text message that is not a command, a press on an inline button,
    and the same two kinds of message arriving as the edit of an earlier
    message. *)
Inductive Update : Type :=
  | Command (name : string)
  | Text (text : string)
  | CallbackQuery (data : string)
  | EditedCommand (name : string)
  | EditedText (text : string).

(** [update.message]: the new message of the update, by its text; [None]
    for an edited message (which is in [update.edited_message]) and for a
    button press. *)
Definition message (u : Update) : option string :=
  match u with
  | Command name => Some ("/" +:+ name)
  | Text text => Some text
  | CallbackQuery _ | EditedCommand _ | EditedText _ => None
  end.

#[global] Instance Update_eq_dec : EqDecision Update.
Proof. solve_decision. Defined.

(** The three kinds of handler registered by [main]; each callback receives
    the part of the update it reads. *)
Inductive Handler : Type :=
  | CommandHandler (command : string) (callback : option string -> M (option State))
  | MessageHandler_text_not_command (callback : option string -> M (option State))
  | CallbackQueryHandler (callback : string -> M (option State)).

(** Which updates a handler accepts.  A command handler compares the
    command in lower case and, like the text filter, looks at the effective
    message of the update, so that edited messages are accepted as well. *)
Definition check_update (h : Handler) (u : Update) : option (M (option State)) :=
  match h, u with
  | CommandHandler command callback, Command name
  | CommandHandler command callback, EditedCommand name =>
      if String.eqb (lower name) (lower command) then Some (callback (message u)) else None
  | MessageHandler_text_not_command callback, Text _
  | MessageHandler_text_not_command callback, EditedText _ =>
      Some (callback (message u))
  | CallbackQueryHandler callback, CallbackQuery data => Some (callback data)
  | _, _ => None
  end.

Record ConversationHandler : Type :=
  { entry_points : list Handler;
    states : list (State * list Handler);
    fallbacks : list Handler }.

(** The first handler of a list that accepts the update. *)
Fixpoint first_match (hs : list Handler) (u : Update) : option (M (option State)) :=
  match hs with
  | [] => None
  | h :: hs' =>
      match check_update h u with
      | Some callback => Some callback
      | None => first_match hs' u
      end
  end.

Fixpoint state_handlers (table : list (State * list Handler)) (st : State) : list Handler :=
  match table with
  | [] => []
  | (st', hs) :: table' => if decide (st' = st) then hs else state_handlers table' st
  end.

(** A conversation handler without re-entry: outside a conversation only
    the entry points are tried; inside, the handlers of the current state
    and then the fallbacks. *)
Definition conversation_check_update (c : ConversationHandler)
    (current : option State) (u : Update) : option (M (option State)) :=
  match current with
  | None => first_match (entry_points c) u
  | Some st =>
      match first_match (state_handlers (states c) st) u with
      | Some callback => Some callback
      | None => first_match (fallbacks c) u
      end
  end.

(** The state of a conversation after its callback ran: [END] closes it,
    another state is entered, [None] (and a raising callback) leaves it
    where it was. *)
Definition next_state (current : option State) (r : Outcome (option State)) : option State :=
  match r with
  | Returns (Some END) => None
  | Returns (Some st) => Some st
  | Returns None => current
  | Raises _ => current
  end.

Section Application.

Context (env : Env).

Definition data_collection_conv_handler : ConversationHandler :=
  {| entry_points := [CommandHandler "start" (start env)];
     states := [ (GET_DATA, [ MessageHandler_text_not_command get_data;
                              CallbackQueryHandler (data_button env) ]) ];
     fallbacks := [CommandHandler "cancel" cancel_data_collection] |}.

Definition search_conv_handler : ConversationHandler :=
  {| entry_points := [CommandHandler "search" search_command];
     states := [ (RECEIVING_SEARCH_QUERY,
                  [ MessageHandler_text_not_command (perform_search env) ]) ];
     fallbacks := [CommandHandler "cancel" cancel_search] |}.

(** The bot as one chat of the user sees it: the world, which holds the
    user's session, and the state of the two conversations in that chat
    ([None]: not in that conversation).  [Application] below puts the chats
    of the user side by side. *)
Record Bot : Type :=
  { world : World;
    data_conversation : option State;
    search_conversation : option State }.

(** One update: the conversation handlers are asked in the order in which
    [main] added them, and the first one that accepts the update runs its
    callback. *)
Definition process_update (b : Bot) (u : Update) : Bot :=
  match conversation_check_update data_collection_conv_handler (data_conversation b) u with
  | Some callback =>
      let (r, w) := callback (world b) in
      {| world := w;
         data_conversation := next_state (data_conversation b) r;
         search_conversation := search_conversation b |}
  | None =>
      match conversation_check_update search_conv_handler (search_conversation b) u with
      | Some callback =>
          let (r, w) := callback (world b) in
          {| world := w;
             data_conversation := data_conversation b;
             search_conversation := next_state (search_conversation b) r |}
      | None => b
      end
  end.

Definition process_updates (b : Bot) (us : list Update) : Bot :=
  fold_left process_update us b.

End Application.

(** The bot as [run_polling] finds it: empty session, no conversation. *)
Definition initial_bot : Bot :=
  {| world := {| user_data := ∅; trace := [] |};
     data_conversation := None;
     search_conversation := None |}.

(** ** The chats of one user

    The framework keeps the state of a conversation per chat and user, and
    the session [user_data] per user.  For one user this is one world and,
    per chat, the states of the two conversations; a chat without an entry
    is not in the conversation. *)
Record Application : Type :=
  { app_world : World;
    data_conversations : gmap Z State;
    search_conversations : gmap Z State }.

(** The application as the chat [chat_id] sees it. *)
Definition chat_view (a : Application) (chat_id : Z) : Bot :=
  {| world := app_world a;
     data_conversation := data_conversations a !! chat_id;
     search_conversation := search_conversations a !! chat_id |}.

(** Store the state of a conversation; [None] removes the entry. *)
Definition set_conversation (chat_id : Z) (st : option State)
    (conversations : gmap Z State) : gmap Z State :=
  match st with
  | Some st' => <[chat_id := st']> conversations
  | None => delete chat_id conversations
  end.

Section Chats.

Context (env : Env).

(** One update, coming from the chat [chat_id]. *)
Definition application_update (a : Application) (cu : Z * Update) : Application :=
  let (chat_id, u) := cu in
  let b := process_update env (chat_view a chat_id) u in
  {| app_world := world b;
     data_conversations :=
       set_conversation chat_id (data_conversation b) (data_conversations a);
     search_conversations :=
       set_conversation chat_id (search_conversation b) (search_conversations a) |}.

Definition application_updates (a : Application) (cus : list (Z * Update)) : Application :=
  fold_left application_update cus a.

End Chats.

Definition initial_application : Application :=
  {| app_world := {| user_data := ∅; trace := [] |};
     data_conversations := ∅;
     search_conversations := ∅ |}.

(** ** [main] *)

(** The steps of [main] that can be seen from outside. *)
Inductive StartupStep : Type :=
  | LoggedError (text : string)
  | Build (token : string)
  | AddHandler (handler : ConversationHandler)
  | RunPolling (poll_interval : nat).

(** [main]: it gives up after logging when the token is the placeholder.
    Otherwise it hands the token to the builder of the library, [build],
    which returns the application or raises; there is no [try] around it.
    With the application built, the two conversation handlers are added and
    polling is started. *)
Definition main (env : Env) (build : string -> Outcome unit)
    (environ : gmap string string) : Outcome unit * list StartupStep :=
  let TOKEN := default "YOUR_BOT_TOKEN" (environ !! "TELEGRAM_BOT_TOKEN") in
  if String.eqb TOKEN "YOUR_BOT_TOKEN" then
    (Returns tt,
     [LoggedError "Please replace 'YOUR_BOT_TOKEN' with your actual Telegram bot token or set the TELEGRAM_BOT_TOKEN environment variable."])
  else
    match build TOKEN with
    | Raises e => (Raises e, [Build TOKEN])
    | Returns _ =>
        (Returns tt,
         [ Build TOKEN;
           AddHandler (data_collection_conv_handler env);
           AddHandler (search_conv_handler env);
           RunPolling 3 ])
    end.

(** * Vocabulary of the statements *)

(** Unfold the monad of a handler applied to a world. *)
Ltac run_handler :=
  cbv beta iota zeta delta
    [bind ret emit raise try_except call get_user_data modify_user_data getitem
     message_text reply_text reply_html];
  simpl.

(** A world whose session is [ud] and whose trace grew by [new]. *)
Definition after (w : World) (ud : gmap string (list string)) (new : list Effect) : World :=
  {| user_data := ud; trace := trace w ++ new |}.

(** The effects of the "finish" branch after the callback was answered,
    when there is something to submit. *)
Definition submission_effects (env : Env) (w : World) : list Effect :=
  let row := pendingEntries (user_data w) in
  match worksheet env with
  | Some ws =>
      AppendRow row ::
      match ws (trace w ++ [Answer]) row with
      | Returns _ =>
          [ EditMessageText "Data successfully added to the dataset!";
            LogInfoRow "Data added to sheet: " row ]
      | Raises e =>
          [ EditMessageText "Sorry, there was an error adding data to the sheet.";
            LogError ("Error appending data to Google Sheet: " +:+ e) ]
      end
  | None =>
      [ EditMessageText "Sorry, could not connect to Google Sheets. Data not saved." ]
  end.

(** The callback data that [data_button] has a branch for. *)
Definition recognised (data : string) : Prop :=
  data = "submit_data" \/ data = "add_more_data" \/
  data = "finish_submission" \/ data = "cancel_submission".

(** What [perform_search] sends once the query has been acknowledged and the
    search issued. *)
Definition search_effects (env : Env) (search_query : string) (w : World) : list Effect :=
  match google_search env
          (trace w ++ [ReplyText ("Searching for '" +:+ search_query +:+ "'...") None])
          [search_query] with
  | Returns search_results => [ReplyText (render_reply search_results) None]
  | Raises e =>
      [ LogError ("Error during search: " +:+ e);
        ReplyText "Sorry, an error occurred while performing the search." None ]
  end.

(** Reduce the projections of pairs, worlds and bots, and nothing else. *)
Ltac proj :=
  cbn [fst snd after user_data trace world data_conversation search_conversation].

(** ** Concrete surroundings used in the examples *)

(** A worksheet that takes every row, and one that refuses every row. *)
Definition sheet_accepting : Worksheet := fun _ _ => Returns tt.

Definition sheet_failing : Worksheet := fun _ _ => Raises "APIError".

Definition record_A_u : SearchResult :=
  {| source_title := Some "A"; url := Some "u"; snippet := None |}.

Definition env_online : Env :=
  {| worksheet := Some sheet_accepting;
     google_search := fun _ _ => Returns [ {| results := [record_A_u] |} ];
     mention_html := "Ada" |}.

Definition env_failing : Env :=
  {| worksheet := Some sheet_failing;
     google_search := fun _ _ => Raises "timeout";
     mention_html := "Ada" |}.

Definition env_offline : Env :=
  {| worksheet := fst (connect_worksheet (Raises "FileNotFoundError"));
     google_search := fun _ _ => Returns [];
     mention_html := "Ada" |}.

(** How the builder of the library answers: it refuses the empty token. *)
Definition library_build (token : string) : Outcome unit :=
  match token with
  | EmptyString =>
      Raises "InvalidToken: You must pass the token you received from https://t.me/Botfather!"
  | String _ _ => Returns tt
  end.

Definition empty_world : World := {| user_data := ∅; trace := [] |}.

(** A session that already holds one entry. *)
Definition world_with_x : World :=
  {| user_data := {[ current_data := ["x"] ]}; trace := [] |}.

(** The three lines and the blank line written for one record. *)
Definition render_block (result : SearchResult) : string :=
  "Title: " +:+ or_NA (source_title result) +:+ nl
  +:+ "URL: " +:+ or_NA (url result) +:+ nl
  +:+ "Snippet: " +:+ or_NA (snippet result) +:+ nl +:+ nl.

(** The blocks of a list of records, one after the other. *)
Fixpoint render_blocks (rs : list SearchResult) : string :=
  match rs with
  | [] => EmptyString
  | result :: rs' => render_block result +:+ render_blocks rs'
  end.

(** The block of the record (A, u, no snippet). *)
Definition block_A_u : string :=
  "Title: A" +:+ nl +:+ "URL: u" +:+ nl +:+ "Snippet: N/A" +:+ nl +:+ nl.

(** The text messages among a list of updates, in order. *)
Fixpoint texts (us : list Update) : list string :=
  match us with
  | [] => []
  | Text text :: us' => text :: texts us'
  | _ :: us' => texts us'
  end.

(** Two chats of the same user.  In the first the user starts a dialogue
    and sends "x"; then, in the second, [/start] and at once "finish". *)
Definition first_chat_collects : list (Z * Update) :=
  [ (1%Z, Command "start"); (1%Z, Text "x") ].

Definition second_chat_finishes : list (Z * Update) :=
  [ (2%Z, Command "start"); (2%Z, CallbackQuery "finish_submission") ].

(** After that the first chat goes on: "y", and "finish". *)
Definition first_chat_finishes : list (Z * Update) :=
  [ (1%Z, Text "y"); (1%Z, CallbackQuery "finish_submission") ].

(** A bot whose search dialogue waits for the query while the session holds
    one entry. *)
Definition searching_with_x : Bot :=
  {| world := world_with_x;
     data_conversation := None;
     search_conversation := Some RECEIVING_SEARCH_QUERY |}.

(** What the updates of one chat maintain: outside the data collection
    dialogue the session holds no ['current_data']; inside, the list under
    that key is never empty. *)
Definition session_invariant (b : Bot) : Prop :=
  (data_conversation b = None /\ user_data (world b) !! current_data = None) \/
  (data_conversation b = Some GET_DATA /\
   forall l, user_data (world b) !! current_data = Some l -> l <> []).

(** ** Vocabulary of the further properties *)

(** The query lists handed to [google_search], oldest first. *)
Fixpoint search_calls (t : list Effect) : list (list string) :=
  match t with
  | [] => []
  | GoogleSearch queries :: t' => queries :: search_calls t'
  | _ :: t' => search_calls t'
  end.

(** A new message that is the command [command], in whatever letter
    case. *)
Definition is_command (command : string) (u : Update) : Prop :=
  exists name, u = Command name /\ lower name = command.

(** An edited message that is the command [command]. *)
Definition is_edited_command (command : string) (u : Update) : Prop :=
  exists name, u = EditedCommand name /\ lower name = command.

(** The update is the edit of an earlier message. *)
Definition edited (u : Update) : bool :=
  match u with
  | EditedCommand _ | EditedText _ => true
  | _ => false
  end.

(** The updates that [data_button] and the fallback answer with [END]: the
    two buttons and a new [/cancel] message. *)
Definition closing (u : Update) : Prop :=
  u = CallbackQuery "finish_submission" \/
  u = CallbackQuery "cancel_submission" \/
  is_command "cancel" u.

(** One whole dialogue as the user drives it: [/start], the messages, the
    "finish" button. *)
Definition dialogue (msgs : list string) : list Update :=
  Command "start" :: map Text msgs ++ [CallbackQuery "finish_submission"].

(** A session in which something else than the entries is stored. *)
Definition world_with_language : World :=
  {| user_data := {[ "language" := ["en"] ]}; trace := [] |}.

(** Both dialogues open at once: [/start] followed by [/search]. *)
Definition collecting_and_searching : Bot :=
  {| world := empty_world;
     data_conversation := Some GET_DATA;
     search_conversation := Some RECEIVING_SEARCH_QUERY |}.

(** A search tool that finds nothing, in two ways. *)
Definition env_nothing_found : Env :=
  {| worksheet := Some sheet_accepting;
     google_search := fun _ _ => Returns [ {| results := [] |};
                                           {| results := [record_A_u] |} ];
     mention_html := "Ada" |}.

(** The rows that a series of dialogues submits: the message lists that are
    not empty. *)
Fixpoint submitted_rows (rounds : list (list string)) : list (list string) :=
  match rounds with
  | [] => []
  | [] :: rounds' => submitted_rows rounds'
  | msgs :: rounds' => msgs :: submitted_rows rounds'
  end.

(** * Properties *)

(** ** What each handler does, in closed form *)

Lemma append_calls_app (t1 t2 : list Effect) :
  append_calls (t1 ++ t2) = append_calls t1 ++ append_calls t2.
Proof.
  induction t1 as [|e t1 IH]; simpl; [reflexivity|].
  destruct e; simpl; rewrite ?IH; reflexivity.
Qed.

Lemma start_run (env : Env) (text : string) (w : World) :
  start env (Some text) w =
  (Returns (Some GET_DATA),
   after w (user_data w)
     [ ReplyHtml ("Hi " +:+ mention_html env
                  +:+ "! I'm a bot to help you collect data for your AI model."
                  +:+ "Send me the data you want to add to the dataset. Type /cancel to stop at any time.");
       ReplyText "Please select an action:"
         (Some [ [ {| label := "Submit Data Point"; callback_data := "submit_data" |};
                   {| label := "Cancel"; callback_data := "cancel_submission" |} ] ]) ]).
Proof.
  unfold start, after. run_handler. by rewrite <- app_assoc.
Qed.

Lemma get_data_run (data_point : string) (w : World) :
  get_data (Some data_point) w =
  (Returns (Some GET_DATA),
   after w (<[current_data := pendingEntries (user_data w) ++ [data_point]]> (user_data w))
     [ ReplyText "Received your data point. Add another one or use the buttons." None;
       ReplyText "What would you like to do next?"
         (Some [ [ {| label := "Add More Data"; callback_data := "add_more_data" |};
                   {| label := "Finish Submission"; callback_data := "finish_submission" |};
                   {| label := "Cancel"; callback_data := "cancel_submission" |} ] ]) ]).
Proof.
  unfold get_data, pendingEntries, after. run_handler.
  destruct (user_data w !! current_data) as [l|] eqn:E; simpl.
  - rewrite E; simpl. by rewrite <- app_assoc.
  - rewrite lookup_insert_eq; simpl. rewrite insert_insert_eq.
    by rewrite <- app_assoc.
Qed.

Lemma has_current_data_true (ud : gmap string (list string)) :
  has_current_data ud = true ->
  ud !! current_data = Some (pendingEntries ud) /\ pendingEntries ud <> [].
Proof.
  unfold has_current_data, pendingEntries.
  destruct (ud !! current_data) as [[|x l]|]; simpl; try discriminate.
  intros _. split; [reflexivity | discriminate].
Qed.

Lemma has_current_data_false (ud : gmap string (list string)) :
  has_current_data ud = false -> pendingEntries ud = [].
Proof.
  unfold has_current_data, pendingEntries.
  destruct (ud !! current_data) as [[|x l]|]; simpl; try discriminate; reflexivity.
Qed.

Lemma data_button_finish_run (env : Env) (w : World) :
  data_button env "finish_submission" w =
  (Returns (Some END),
   if has_current_data (user_data w)
   then after w (delete current_data (user_data w)) (Answer :: submission_effects env w)
   else after w (user_data w) [Answer; EditMessageText "No data collected yet."]).
Proof.
  unfold data_button, submission_effects, after. run_handler.
  destruct (has_current_data (user_data w)) eqn:H; simpl.
  - apply has_current_data_true in H as [H _].
    destruct (worksheet env) as [ws|]; simpl.
    + rewrite H; simpl.
      destruct (ws (trace w ++ [Answer]) (pendingEntries (user_data w))); simpl;
        rewrite ?H; simpl; by rewrite <- !app_assoc.
    + by rewrite <- app_assoc.
  - by rewrite <- app_assoc.
Qed.

Lemma data_button_more_run (env : Env) (data : string) (w : World) :
  data = "submit_data" \/ data = "add_more_data" ->
  data_button env data w =
  (Returns (Some GET_DATA),
   after w (user_data w) [Answer; EditMessageText "Okay, send me the data point."]).
Proof.
  intros [-> | ->]; unfold data_button, after; run_handler;
    by rewrite <- app_assoc.
Qed.

Lemma data_button_cancel_run (env : Env) (w : World) :
  data_button env "cancel_submission" w =
  (Returns (Some END),
   after w (delete current_data (user_data w))
     [Answer; EditMessageText "Data submission cancelled."]).
Proof.
  unfold data_button, after. run_handler. by rewrite <- app_assoc.
Qed.

Lemma data_button_other_run (env : Env) (data : string) (w : World) :
  ~ recognised data ->
  data_button env data w = (Returns None, after w (user_data w) [Answer]).
Proof.
  unfold recognised. intros H. unfold data_button, after.
  cbv beta iota zeta delta [bind ret emit].
  destruct (String.eqb_spec data "submit_data"); [tauto|].
  destruct (String.eqb_spec data "add_more_data"); [tauto|].
  destruct (String.eqb_spec data "finish_submission"); [tauto|].
  destruct (String.eqb_spec data "cancel_submission"); [tauto|].
  reflexivity.
Qed.

Lemma cancel_data_collection_run (text : string) (w : World) :
  cancel_data_collection (Some text) w =
  (Returns (Some END),
   after w (delete current_data (user_data w))
     [ReplyText "Data submission cancelled. Bye!" None]).
Proof. reflexivity. Qed.

Lemma search_command_run (text : string) (w : World) :
  search_command (Some text) w =
  (Returns (Some RECEIVING_SEARCH_QUERY),
   after w (user_data w) [ReplyText "What would you like to search for?" None]).
Proof. reflexivity. Qed.

Lemma cancel_search_run (text : string) (w : World) :
  cancel_search (Some text) w =
  (Returns (Some END), after w (user_data w) [ReplyText "Search cancelled." None]).
Proof. reflexivity. Qed.

Lemma perform_search_run (env : Env) (search_query : string) (w : World) :
  perform_search env (Some search_query) w =
  (Returns (Some END),
   after w (user_data w)
     (ReplyText ("Searching for '" +:+ search_query +:+ "'...") None
        :: GoogleSearch [search_query] :: search_effects env search_query w)).
Proof.
  unfold perform_search, search_effects, after. run_handler.
  destruct (google_search env _ [search_query]); simpl; by rewrite <- !app_assoc.
Qed.

(** *** The same callbacks on an edited message *)

Lemma start_edited (env : Env) (w : World) :
  start env None w = (Raises (AttributeError "reply_html"), w).
Proof. reflexivity. Qed.

Lemma get_data_edited (w : World) :
  get_data None w = (Raises (AttributeError "text"), w).
Proof. reflexivity. Qed.

Lemma cancel_data_collection_edited (w : World) :
  cancel_data_collection None w =
  (Raises (AttributeError "reply_text"),
   {| user_data := delete current_data (user_data w); trace := trace w |}).
Proof. reflexivity. Qed.

Lemma search_command_edited (w : World) :
  search_command None w = (Raises (AttributeError "reply_text"), w).
Proof. reflexivity. Qed.

Lemma perform_search_edited (env : Env) (w : World) :
  perform_search env None w = (Raises (AttributeError "text"), w).
Proof. reflexivity. Qed.

Lemma cancel_search_edited (w : World) :
  cancel_search None w = (Raises (AttributeError "reply_text"), w).
Proof. reflexivity. Qed.

(** ** Unrecognised buttons *)

(** C10. A button press whose callback data is none of ["submit_data"],
    ["add_more_data"], ["finish_submission"], ["cancel_submission"] is
    answered and nothing else happens: the session dictionary is the same,
    the only new effect is the answer to the callback, and the handler
    returns [None] (neither [GET_DATA] nor [END]). *)
Theorem unrecognised_button_is_only_answered
    (env : Env) (data : string) (w : World) :
  data <> "submit_data" -> data <> "add_more_data" ->
  data <> "finish_submission" -> data <> "cancel_submission" ->
  data_button env data w =
  (Returns None, {| user_data := user_data w; trace := trace w ++ [Answer] |}).
Proof.
  intros H1 H2 H3 H4. apply data_button_other_run. unfold recognised. tauto.
Qed.

Lemma unrecognised_button_is_only_answered_witness :
  data_button env_online "export" world_with_x =
  (Returns None, {| user_data := user_data world_with_x;
                    trace := trace world_with_x ++ [Answer] |}).
Proof.
  apply (unrecognised_button_is_only_answered env_online "export" world_with_x);
    discriminate.
Defined.

(** ** The session after "finish" *)

(** C9. When "finish" is pressed with entries pending, the ['current_data']
    key is gone from the session afterwards and the rest of the session is
    as it was, whatever the surroundings are: worksheet missing, append
    returning, append raising.  The handler returns [END], and a dialogue
    started later collects from scratch. *)
Theorem finish_always_drops_the_entries (env : Env) (w : World) :
  pendingEntries (user_data w) <> [] ->
  let w' := snd (data_button env "finish_submission" w) in
  fst (data_button env "finish_submission" w) = Returns (Some END) /\
  user_data w' = delete current_data (user_data w) /\
  user_data w' !! current_data = None /\
  forall command data_point,
    pendingEntries
      (user_data (snd (get_data (Some data_point) (snd (start env (Some command) w')))))
    = [data_point].
Proof.
  intros H. rewrite data_button_finish_run.
  destruct (has_current_data (user_data w)) eqn:E.
  - proj. split; [reflexivity|]. split; [reflexivity|].
    split; [apply lookup_delete_eq|].
    intros command dp. rewrite start_run. proj. rewrite get_data_run. proj.
    unfold pendingEntries. rewrite lookup_insert_eq, lookup_delete_eq.
    reflexivity.
  - apply has_current_data_false in E. contradiction.
Qed.

Lemma finish_always_drops_the_entries_witness :
  user_data (snd (data_button env_failing "finish_submission" world_with_x))
    !! current_data = None.
Proof.
  apply (finish_always_drops_the_entries env_failing world_with_x).
  vm_compute. discriminate.
Defined.

(** ** Failures of the external calls *)

(** C7. Neither handler that talks to an external service lets a failure
    out.  [perform_search] and the "finish" branch of [data_button] return
    [END] in every world and with every behaviour of the services (their
    result is never a raised exception).  When the search raises [e], the
    error is logged and the generic search error is sent; when the append
    raises [e], the generic sheet error is shown and the error is logged. *)
Theorem external_failures_are_caught (env : Env) (w : World) :
  (forall search_query,
     exists new,
       perform_search env (Some search_query) w
       = (Returns (Some END), after w (user_data w) new) /\
       forall e,
         google_search env
           (trace w ++ [ReplyText ("Searching for '" +:+ search_query +:+ "'...") None])
           [search_query] = Raises e ->
         new = [ ReplyText ("Searching for '" +:+ search_query +:+ "'...") None;
                 GoogleSearch [search_query];
                 LogError ("Error during search: " +:+ e);
                 ReplyText "Sorry, an error occurred while performing the search." None ])
  /\
  (exists ud' new,
     data_button env "finish_submission" w = (Returns (Some END), after w ud' new) /\
     forall ws e,
       worksheet env = Some ws ->
       pendingEntries (user_data w) <> [] ->
       ws (trace w ++ [Answer]) (pendingEntries (user_data w)) = Raises e ->
       new = [ Answer;
               AppendRow (pendingEntries (user_data w));
               EditMessageText "Sorry, there was an error adding data to the sheet.";
               LogError ("Error appending data to Google Sheet: " +:+ e) ]).
Proof.
  split.
  - intros q. eexists. split; [apply perform_search_run|].
    intros e He. unfold search_effects. by rewrite He.
  - rewrite data_button_finish_run.
    destruct (has_current_data (user_data w)) eqn:E.
    + do 2 eexists. split; [reflexivity|].
      intros ws e Hws _ He. unfold submission_effects. by rewrite Hws, He.
    + do 2 eexists. split; [reflexivity|].
      intros ws e _ Hne _. apply has_current_data_false in E. contradiction.
Qed.

Lemma external_failures_are_caught_witness :
  perform_search env_failing (Some "q") world_with_x
  = (Returns (Some END),
     after world_with_x (user_data world_with_x)
       [ ReplyText "Searching for 'q'..." None;
         GoogleSearch ["q"];
         LogError "Error during search: timeout";
         ReplyText "Sorry, an error occurred while performing the search." None ])
  /\
  exists ud',
    data_button env_failing "finish_submission" world_with_x
    = (Returns (Some END),
       after world_with_x ud'
         [ Answer;
           AppendRow ["x"];
           EditMessageText "Sorry, there was an error adding data to the sheet.";
           LogError "Error appending data to Google Sheet: APIError" ]).
Proof.
  destruct (external_failures_are_caught env_failing world_with_x) as [Hs Hb].
  split.
  - destruct (Hs "q") as (new & Hrun & Hnew).
    rewrite Hrun. rewrite (Hnew "timeout"); reflexivity.
  - destruct Hb as (ud' & new & Hrun & Hnew).
    exists ud'. rewrite Hrun.
    rewrite (Hnew sheet_failing "APIError");
      [reflexivity | reflexivity | vm_compute; discriminate | reflexivity].
Defined.

(** ** Start-up *)

(** C8, as the claim reads: with a token that is set and is not the
    placeholder the application is built and started.  The builder of the
    library refuses the empty token; [main] has no [try] around it, so with
    [TELEGRAM_BOT_TOKEN] set to the empty string it ends in [InvalidToken],
    without a handler added and without polling. *)
Lemma main_with_an_empty_token :
  let environ : gmap string string := {[ "TELEGRAM_BOT_TOKEN" := EmptyString ]} in
  environ !! "TELEGRAM_BOT_TOKEN" = Some EmptyString /\
  EmptyString <> "YOUR_BOT_TOKEN" /\
  main env_online library_build environ
  = (Raises "InvalidToken: You must pass the token you received from https://t.me/Botfather!",
     [Build EmptyString]) /\
  ~ In (RunPolling 3) (snd (main env_online library_build environ)).
Proof.
  split; [reflexivity|]. split; [discriminate|]. split; [reflexivity|].
  vm_compute. intros [H | []]. discriminate H.
Qed.

(** C8, amended.  [main] looks at the [TELEGRAM_BOT_TOKEN] variable only.
    When it is unset, or set to the placeholder ["YOUR_BOT_TOKEN"], [main]
    logs an error and returns without calling the builder.  With any other
    value it hands that token to the builder of the library: if the builder
    returns, the two conversation handlers are added, data collection
    first, and polling is started with an interval of 3; if the builder
    raises, the exception leaves [main], no handler is added and polling is
    not started. *)
Theorem main_needs_a_token
    (env : Env) (build : string -> Outcome unit) (environ : gmap string string) :
  (environ !! "TELEGRAM_BOT_TOKEN" = None \/
   environ !! "TELEGRAM_BOT_TOKEN" = Some "YOUR_BOT_TOKEN" ->
   exists text, main env build environ = (Returns tt, [LoggedError text]))
  /\
  (forall token,
     environ !! "TELEGRAM_BOT_TOKEN" = Some token ->
     token <> "YOUR_BOT_TOKEN" ->
     (build token = Returns tt ->
      main env build environ =
      (Returns tt,
       [ Build token;
         AddHandler (data_collection_conv_handler env);
         AddHandler (search_conv_handler env);
         RunPolling 3 ])) /\
     (forall e,
        build token = Raises e ->
        main env build environ = (Raises e, [Build token]))).
Proof.
  unfold main. split.
  - intros [-> | ->]; simpl; eexists; reflexivity.
  - intros token -> Hne. simpl.
    destruct (String.eqb_spec token "YOUR_BOT_TOKEN"); [contradiction|].
    split; [intros -> | intros e ->]; reflexivity.
Qed.

Lemma main_needs_a_token_witness :
  (exists text, main env_online library_build ∅ = (Returns tt, [LoggedError text])) /\
  main env_online library_build {[ "TELEGRAM_BOT_TOKEN" := "123:abc" ]} =
  (Returns tt,
   [ Build "123:abc";
     AddHandler (data_collection_conv_handler env_online);
     AddHandler (search_conv_handler env_online);
     RunPolling 3 ]).
Proof.
  split.
  - apply (main_needs_a_token env_online library_build ∅). left. reflexivity.
  - destruct (main_needs_a_token env_online library_build
                {[ "TELEGRAM_BOT_TOKEN" := "123:abc" ]}) as [_ Hset].
    destruct (Hset "123:abc" eq_refl ltac:(discriminate)) as [Hbuilt _].
    exact (Hbuilt eq_refl).
Defined.

(** ** "finish" without a worksheet *)

(** C4, as the claim reads: with the connection failed at start-up, a
    "finish" is answered with the unavailable-backend message.  It is not
    when nothing was collected: the emptiness test comes first, and the
    reply is "No data collected yet.". *)
Lemma finish_offline_with_nothing_collected :
  worksheet env_offline = None /\
  snd (data_button env_offline "finish_submission" empty_world)
  = {| user_data := ∅;
       trace := [Answer; EditMessageText "No data collected yet."] |} /\
  ~ In (EditMessageText "Sorry, could not connect to Google Sheets. Data not saved.")
       (trace (snd (data_button env_offline "finish_submission" empty_world))).
Proof.
  split; [reflexivity|]. split; [reflexivity|].
  vm_compute. intros [H | [H | []]]; discriminate H.
Qed.

(** C4, amended.  When the connection failed at start-up the global
    [worksheet] is [None], and then every "finish", in every session, ends
    the dialogue without an [append_row] call.  The reply is the
    unavailable-backend message when entries are pending (they are dropped),
    and "No data collected yet." when none are. *)
Theorem finish_offline_never_appends (env : Env) (e : exn) (w : World) :
  worksheet env = fst (connect_worksheet (Raises e)) ->
  data_button env "finish_submission" w =
  (Returns (Some END),
   if has_current_data (user_data w)
   then after w (delete current_data (user_data w))
          [ Answer;
            EditMessageText "Sorry, could not connect to Google Sheets. Data not saved." ]
   else after w (user_data w) [Answer; EditMessageText "No data collected yet."])
  /\
  append_calls (trace (snd (data_button env "finish_submission" w)))
  = append_calls (trace w).
Proof.
  intros Hws. simpl in Hws. rewrite data_button_finish_run.
  unfold submission_effects. rewrite Hws.
  split; [reflexivity|].
  destruct (has_current_data (user_data w)); proj;
    rewrite append_calls_app; simpl; apply app_nil_r.
Qed.

Lemma finish_offline_never_appends_witness :
  worksheet env_offline = fst (connect_worksheet (Raises "FileNotFoundError")) /\
  data_button env_offline "finish_submission" world_with_x =
  (Returns (Some END),
   after world_with_x (delete current_data (user_data world_with_x))
     [ Answer;
       EditMessageText "Sorry, could not connect to Google Sheets. Data not saved." ]).
Proof.
  split; [reflexivity|].
  apply (finish_offline_never_appends env_offline "FileNotFoundError" world_with_x).
  reflexivity.
Defined.

(** ** The text of a search reply *)

Lemma string_app_assoc (s1 s2 s3 : string) : (s1 +:+ s2) +:+ s3 = s1 +:+ s2 +:+ s3.
Proof.
  induction s1 as [|c s1 IH]; [reflexivity|].
  change (String c ((s1 +:+ s2) +:+ s3) = String c (s1 +:+ s2 +:+ s3)).
  by rewrite IH.
Qed.

Lemma string_app_empty (s : string) : s +:+ EmptyString = s.
Proof.
  induction s as [|c s IH]; [reflexivity|].
  change (String c (s +:+ EmptyString) = String c s). by rewrite IH.
Qed.

Lemma render_step_block (reply_text : string) (result : SearchResult) :
  render_step reply_text result = reply_text +:+ render_block result.
Proof.
  unfold render_step, render_block. cbv zeta. by rewrite !string_app_assoc.
Qed.

Lemma render_loop_blocks (rs : list SearchResult) :
  forall reply_text,
    fold_left render_step rs reply_text = reply_text +:+ render_blocks rs.
Proof.
  induction rs as [|r rs IH]; intros reply_text; simpl.
  - by rewrite string_app_empty.
  - by rewrite IH, render_step_block, string_app_assoc.
Qed.

(** Whenever the first result set is not empty, the reply is the heading
    followed by the block of every record, in the order received; a missing
    or empty field is written as "N/A". *)
Lemma render_reply_in_order (first : SearchResults) (rest : list SearchResults) :
  results first <> [] ->
  render_reply (first :: rest)
  = "Search Results:" +:+ nl +:+ nl +:+ render_blocks (results first).
Proof.
  intros H. unfold render_reply.
  destruct (results first) as [|r rs] eqn:E; [done|].
  by rewrite render_loop_blocks, !string_app_assoc.
Qed.

(** C3, as the claim reads: for the single record (A, u, no snippet) the
    reply is exactly the block of that record.  The reply that is sent is
    longer: it opens with the "Search Results:" heading. *)
Lemma search_reply_is_not_the_bare_block :
  google_search env_online [ReplyText "Searching for 'q'..." None] ["q"]
  = Returns [ {| results := [record_A_u] |} ] /\
  ~ In (ReplyText block_A_u None)
       (trace (snd (perform_search env_online (Some "q") empty_world))).
Proof.
  split; [reflexivity|].
  vm_compute. intros [H | [H | [H | []]]]; discriminate H.
Qed.

(** C3, amended.  When the first result set holds exactly the record with
    title "A", url "u" and no snippet, [perform_search] acknowledges the
    query, searches, and replies with the heading "Search Results:", a
    blank line, and then exactly "Title: A\nURL: u\nSnippet: N/A\n\n". *)
Theorem search_reply_for_one_record
    (env : Env) (search_query : string) (w : World)
    (first : SearchResults) (rest : list SearchResults) :
  google_search env
    (trace w ++ [ReplyText ("Searching for '" +:+ search_query +:+ "'...") None])
    [search_query] = Returns (first :: rest) ->
  results first = [record_A_u] ->
  perform_search env (Some search_query) w =
  (Returns (Some END),
   after w (user_data w)
     [ ReplyText ("Searching for '" +:+ search_query +:+ "'...") None;
       GoogleSearch [search_query];
       ReplyText ("Search Results:" +:+ nl +:+ nl +:+ block_A_u) None ]).
Proof.
  intros Hsearch Hfirst. rewrite perform_search_run.
  unfold search_effects. rewrite Hsearch.
  unfold render_reply. rewrite Hfirst. reflexivity.
Qed.

Lemma search_reply_for_one_record_witness :
  perform_search env_online (Some "q") empty_world =
  (Returns (Some END),
   after empty_world ∅
     [ ReplyText "Searching for 'q'..." None;
       GoogleSearch ["q"];
       ReplyText ("Search Results:" +:+ nl +:+ nl +:+ block_A_u) None ]).
Proof.
  apply (search_reply_for_one_record env_online "q" empty_world
           {| results := [record_A_u] |} []); reflexivity.
Defined.

(** ** Entering the data collection dialogue *)

(** C5, as the claim reads: [start] makes [pendingEntries] empty.  It does
    not write to the session at all, so a session that holds an entry still
    holds it when [GET_DATA] is entered. *)
Lemma start_keeps_what_the_session_holds :
  fst (start env_online (Some "/start") world_with_x) = Returns (Some GET_DATA) /\
  pendingEntries (user_data (snd (start env_online (Some "/start") world_with_x)))
  = ["x"] /\
  pendingEntries (user_data (snd (start env_online (Some "/start") world_with_x)))
  <> [].
Proof.
  split; [reflexivity|]. split; [reflexivity|]. vm_compute. discriminate.
Qed.

(** C5, amended.  On a [/start] message, [start] sends the greeting with
    the mention of the user and then "Please select an action:" with the
    two buttons "Submit Data Point" and "Cancel", and moves to [GET_DATA];
    it sends nothing else, what it sends does not depend on the session,
    and the session is left exactly as it was.  The list of entries is
    created by [get_data] on the first text message.  So in a session
    without a ['current_data'] key, [pendingEntries] is empty when
    [GET_DATA] is entered and holds exactly the first message once it
    arrived. *)
Theorem start_leaves_the_session (env : Env) (command : string) (w : World) :
  start env (Some command) w =
  (Returns (Some GET_DATA),
   {| user_data := user_data w;
      trace :=
        trace w ++
        [ ReplyHtml ("Hi " +:+ mention_html env
                     +:+ "! I'm a bot to help you collect data for your AI model."
                     +:+ "Send me the data you want to add to the dataset. Type /cancel to stop at any time.");
          ReplyText "Please select an action:"
            (Some [ [ {| label := "Submit Data Point"; callback_data := "submit_data" |};
                      {| label := "Cancel"; callback_data := "cancel_submission" |} ] ]) ] |})
  /\
  (user_data w !! current_data = None ->
   pendingEntries (user_data (snd (start env (Some command) w))) = [] /\
   forall data_point,
     user_data (snd (get_data (Some data_point) (snd (start env (Some command) w))))
       !! current_data
     = Some [data_point]).
Proof.
  rewrite start_run. split; [reflexivity|]. proj.
  intros Hnone. unfold pendingEntries. rewrite Hnone. split; [reflexivity|].
  intros dp. rewrite get_data_run. proj.
  unfold pendingEntries. rewrite Hnone. apply lookup_insert_eq.
Qed.

Lemma start_leaves_the_session_witness :
  user_data empty_world !! current_data = None /\
  pendingEntries (user_data (snd (start env_online (Some "/start") empty_world))) = [] /\
  user_data (snd (get_data (Some "a") (snd (start env_online (Some "/start") empty_world))))
    !! current_data
  = Some ["a"].
Proof.
  split; [reflexivity|].
  destruct (start_leaves_the_session env_online "/start" empty_world) as (_ & H).
  destruct (H eq_refl) as [H1 H2]. split; [exact H1 | exact (H2 "a")].
Defined.

(** ** One update at a time *)


Lemma texts_map_Text (msgs : list string) : texts (map Text msgs) = msgs.
Proof. induction msgs as [|m msgs IH]; simpl; congruence. Qed.

Lemma texts_cons (u : Update) (us : list Update) : texts (u :: us) = texts [u] ++ texts us.
Proof. by destruct u. Qed.

Lemma has_current_data_pending (ud : gmap string (list string)) :
  pendingEntries ud <> [] -> has_current_data ud = true.
Proof.
  intros H. destruct (has_current_data ud) eqn:E; [reflexivity|].
  apply has_current_data_false in E. contradiction.
Qed.

Lemma pendingEntries_insert (ud : gmap string (list string)) (l : list string) :
  pendingEntries (<[current_data := l]> ud) = l.
Proof. unfold pendingEntries. by rewrite lookup_insert_eq. Qed.

Lemma pendingEntries_delete (ud : gmap string (list string)) :
  pendingEntries (delete current_data ud) = [].
Proof. unfold pendingEntries. by rewrite lookup_delete_eq. Qed.

Lemma append_calls_submission (env : Env) (w : World) :
  append_calls (submission_effects env w) =
  match worksheet env with
  | Some _ => [pendingEntries (user_data w)]
  | None => []
  end.
Proof.
  unfold submission_effects. destruct (worksheet env) as [ws|]; [|reflexivity].
  simpl. by destruct (ws _ _).
Qed.

Lemma append_calls_search (env : Env) (search_query : string) (w : World) :
  append_calls (search_effects env search_query w) = [].
Proof. unfold search_effects. by destruct (google_search env _ _). Qed.

Lemma search_calls_app (t1 t2 : list Effect) :
  search_calls (t1 ++ t2) = search_calls t1 ++ search_calls t2.
Proof.
  induction t1 as [|e t1 IH]; simpl; [reflexivity|].
  destruct e; simpl; rewrite ?IH; reflexivity.
Qed.

(** The four recognised callback data, decided. *)
Lemma recognised_dec (data : string) : recognised data \/ ~ recognised data.
Proof.
  unfold recognised.
  destruct (String.eqb_spec data "submit_data"); [tauto|].
  destruct (String.eqb_spec data "add_more_data"); [tauto|].
  destruct (String.eqb_spec data "finish_submission"); [tauto|].
  destruct (String.eqb_spec data "cancel_submission"); tauto.
Qed.

(** Split on the comparisons of a lower-cased command that a goal
    contains. *)
Ltac split_commands :=
  repeat match goal with
         | |- context [String.eqb (lower ?name) ?command] =>
             destruct (String.eqb_spec (lower name) command)
         end.

(** Close a goal in which a command both is and is not some word. *)
Ltac clash :=
  exfalso;
  match goal with
  | Hn : lower ?name <> _, He : lower ?name = _ |- _ => apply Hn; exact He
  end.

Section Steps.

Context (env : Env).

(** The update is taken by the data collection conversation. *)
Lemma process_update_data (b : Bot) (u : Update) (callback : M (option State)) :
  conversation_check_update (data_collection_conv_handler env) (data_conversation b) u
  = Some callback ->
  process_update env b u =
  {| world := snd (callback (world b));
     data_conversation := next_state (data_conversation b) (fst (callback (world b)));
     search_conversation := search_conversation b |}.
Proof.
  intros H. unfold process_update. rewrite H.
  by destruct (callback (world b)).
Qed.

(** The update is passed on to the search conversation, which takes it. *)
Lemma process_update_search (b : Bot) (u : Update) (callback : M (option State)) :
  conversation_check_update (data_collection_conv_handler env) (data_conversation b) u
  = None ->
  conversation_check_update (search_conv_handler env) (search_conversation b) u
  = Some callback ->
  process_update env b u =
  {| world := snd (callback (world b));
     data_conversation := data_conversation b;
     search_conversation :=
       next_state (search_conversation b) (fst (callback (world b))) |}.
Proof.
  intros Hd Hs. unfold process_update. rewrite Hd, Hs.
  by destruct (callback (world b)).
Qed.

(** [data_button] returns normally whatever the button, writes to no key of
    the session but ['current_data'], and appends a row only on "finish"
    with entries pending: all of them. *)
Lemma data_button_run_any (data : string) (w : World) :
  exists r ud' new,
    data_button env data w = (Returns r, after w ud' new) /\
    (forall k, k <> current_data -> ud' !! k = user_data w !! k) /\
    (append_calls new = [] \/
     (data = "finish_submission" /\
      pendingEntries (user_data w) <> [] /\
      append_calls new = [pendingEntries (user_data w)] /\
      r = Some END)).
Proof.
  destruct (recognised_dec data) as [[H | [H | [-> | ->]]] | Hno].
  - rewrite data_button_more_run by tauto. do 3 eexists.
    split; [reflexivity|]. split; [done | by left].
  - rewrite data_button_more_run by tauto. do 3 eexists.
    split; [reflexivity|]. split; [done | by left].
  - rewrite data_button_finish_run.
    destruct (has_current_data (user_data w)) eqn:E; do 3 eexists;
      (split; [reflexivity|]).
    + split; [intros k Hk; by rewrite lookup_delete_ne|].
      simpl. rewrite append_calls_submission.
      destruct (worksheet env); [right | by left].
      apply has_current_data_true in E as [_ E]. done.
    + split; [done | by left].
  - rewrite data_button_cancel_run. do 3 eexists. split; [reflexivity|].
    split; [intros k Hk; by rewrite lookup_delete_ne | by left].
  - rewrite data_button_other_run by done. do 3 eexists.
    split; [reflexivity|]. split; [done | by left].
Qed.

(** What every callback of the data collection conversation has in common:
    it writes to no key but ['current_data'], it appends a row only as the
    "finish" button in [GET_DATA] does, it returns when the update is a new
    message or a button press, and it raises when the update is an edited
    message. *)
Lemma data_callback_effects
    (current : option State) (u : Update) (callback : M (option State)) (w : World) :
  conversation_check_update (data_collection_conv_handler env) current u
  = Some callback ->
  exists o w' new,
    callback w = (o, w') /\
    trace w' = trace w ++ new /\
    (forall k, k <> current_data -> user_data w' !! k = user_data w !! k) /\
    (append_calls new = [] \/
     (u = CallbackQuery "finish_submission" /\
      current = Some GET_DATA /\
      pendingEntries (user_data w) <> [] /\
      append_calls new = [pendingEntries (user_data w)] /\
      o = Returns (Some END))) /\
    (edited u = false -> exists r, o = Returns r) /\
    (edited u = true -> exists e, o = Raises e).
Proof.
  assert (Hraise : forall e ud',
             (forall k, k <> current_data -> ud' !! k = user_data w !! k) ->
             edited u = true ->
             callback w = (Raises e, {| user_data := ud'; trace := trace w |}) ->
             exists o w' new,
               callback w = (o, w') /\
               trace w' = trace w ++ new /\
               (forall k, k <> current_data -> user_data w' !! k = user_data w !! k) /\
               (append_calls new = [] \/
                (u = CallbackQuery "finish_submission" /\
                 current = Some GET_DATA /\
                 pendingEntries (user_data w) <> [] /\
                 append_calls new = [pendingEntries (user_data w)] /\
                 o = Returns (Some END))) /\
               (edited u = false -> exists r, o = Returns r) /\
               (edited u = true -> exists e, o = Raises e)).
  { intros e ud' Hframe Hed ->. exists (Raises e), {| user_data := ud'; trace := trace w |}, [].
    split; [done|]. split; [by rewrite app_nil_r|]. split; [done|].
    split; [by left|]. split; [congruence | eauto]. }
  assert (Hret : forall r ud' new,
             (forall k, k <> current_data -> ud' !! k = user_data w !! k) ->
             append_calls new = [] ->
             edited u = false ->
             callback w = (Returns r, after w ud' new) ->
             exists o w' new,
               callback w = (o, w') /\
               trace w' = trace w ++ new /\
               (forall k, k <> current_data -> user_data w' !! k = user_data w !! k) /\
               (append_calls new = [] \/
                (u = CallbackQuery "finish_submission" /\
                 current = Some GET_DATA /\
                 pendingEntries (user_data w) <> [] /\
                 append_calls new = [pendingEntries (user_data w)] /\
                 o = Returns (Some END))) /\
               (edited u = false -> exists r, o = Returns r) /\
               (edited u = true -> exists e, o = Raises e)).
  { intros r ud' new Hframe Hq Hed ->. exists (Returns r), (after w ud' new), new.
    split; [done|]. split; [done|]. split; [done|].
    split; [by left|]. split; [eauto | congruence]. }
  destruct current as [[]|], u as [name|text|data|name|text];
    simpl; split_commands; try discriminate; intros [= <-].
  all: try (eapply Hret; [| | reflexivity | apply cancel_data_collection_run];
            [intros k Hk; by rewrite lookup_delete_ne | reflexivity]).
  all: try (eapply Hraise; [| reflexivity | apply cancel_data_collection_edited];
            intros k Hk; by rewrite lookup_delete_ne).
  - eapply Hret; [| | reflexivity | apply get_data_run]; [|reflexivity].
    intros k Hk. by rewrite lookup_insert_ne.
  - destruct (data_button_run_any data w) as (r & ud' & new & -> & Hframe & Hcalls).
    exists (Returns r), (after w ud' new), new.
    split; [done|]. split; [done|]. split; [done|]. split.
    + destruct Hcalls as [Hq | (-> & Hne & Hrow & ->)]; [by left | right; done].
    + split; [eauto | discriminate].
  - eapply Hraise; [| reflexivity |]; [done|].
    rewrite get_data_edited. by destruct w.
  - eapply Hret; [| | reflexivity | apply start_run]; done.
  - eapply Hraise; [| reflexivity |]; [done|].
    rewrite start_edited. by destruct w.
Qed.

(** What every callback of the search conversation has in common: the
    session is left alone and no row is appended; it returns on a new
    message and raises on an edited one. *)
Lemma search_callback_effects
    (current : option State) (u : Update) (callback : M (option State)) (w : World) :
  conversation_check_update (search_conv_handler env) current u = Some callback ->
  exists o w' new,
    callback w = (o, w') /\
    trace w' = trace w ++ new /\
    user_data w' = user_data w /\
    append_calls new = [] /\
    (edited u = false -> exists r, o = Returns r) /\
    (edited u = true -> exists e, o = Raises e).
Proof.
  assert (Hraise : forall e,
             edited u = true -> callback w = (Raises e, w) ->
             exists o w' new,
               callback w = (o, w') /\ trace w' = trace w ++ new /\
               user_data w' = user_data w /\ append_calls new = [] /\
               (edited u = false -> exists r, o = Returns r) /\
               (edited u = true -> exists e, o = Raises e)).
  { intros e Hed ->. exists (Raises e), w, []. rewrite app_nil_r.
    repeat split; try done; [congruence | eauto]. }
  assert (Hret : forall r new,
             append_calls new = [] -> edited u = false ->
             callback w = (Returns r, after w (user_data w) new) ->
             exists o w' new,
               callback w = (o, w') /\ trace w' = trace w ++ new /\
               user_data w' = user_data w /\ append_calls new = [] /\
               (edited u = false -> exists r, o = Returns r) /\
               (edited u = true -> exists e, o = Raises e)).
  { intros r new Hq Hed ->. exists (Returns r), (after w (user_data w) new), new.
    repeat split; try done; [eauto | congruence]. }
  destruct current as [[]|], u as [name|text|data|name|text];
    simpl; split_commands; try discriminate; intros [= <-].
  all: try (eapply Hret; [| reflexivity | apply cancel_search_run]; reflexivity).
  all: try (eapply Hraise; [reflexivity | apply search_command_edited]).
  - eapply Hret; [| reflexivity | apply perform_search_run].
    simpl. apply append_calls_search.
  - eapply Hraise; [reflexivity | apply perform_search_edited].
  - eapply Hret; [| reflexivity | apply search_command_run]. reflexivity.
Qed.

(** The update is not for the data collection conversation: its state, the
    session and the list of appended rows stay as they are. *)
Lemma process_update_not_data (b : Bot) (u : Update) :
  conversation_check_update (data_collection_conv_handler env) (data_conversation b) u
  = None ->
  data_conversation (process_update env b u) = data_conversation b /\
  user_data (world (process_update env b u)) = user_data (world b) /\
  exists new,
    trace (world (process_update env b u)) = trace (world b) ++ new /\
    append_calls new = [].
Proof.
  intros H. unfold process_update. rewrite H.
  destruct (conversation_check_update (search_conv_handler env) _ u)
    as [callback|] eqn:E.
  - destruct (search_callback_effects _ _ _ (world b) E)
      as (o & w' & new & -> & Ht & Hud & Hq & _).
    proj. eauto.
  - split; [reflexivity|]. split; [reflexivity|].
    exists []. by rewrite app_nil_r.
Qed.

(** One update, in any state of the two conversations: no key of the
    session but ['current_data'] is written, and a row is appended only by
    the "finish" button pressed in [GET_DATA] with entries pending; the row
    is then all of them and the press closes the dialogue. *)
Lemma step_effects (b : Bot) (u : Update) :
  exists new,
    trace (world (process_update env b u)) = trace (world b) ++ new /\
    (forall k, k <> current_data ->
       user_data (world (process_update env b u)) !! k = user_data (world b) !! k) /\
    (append_calls new = [] \/
     (u = CallbackQuery "finish_submission" /\
      data_conversation b = Some GET_DATA /\
      pendingEntries (user_data (world b)) <> [] /\
      append_calls new = [pendingEntries (user_data (world b))] /\
      data_conversation (process_update env b u) = None)).
Proof.
  destruct (conversation_check_update (data_collection_conv_handler env)
              (data_conversation b) u) as [callback|] eqn:Ed.
  - rewrite (process_update_data b u callback Ed).
    destruct (data_callback_effects _ _ _ (world b) Ed)
      as (o & w' & new & -> & Ht & Hframe & Hcalls & _).
    proj. exists new. split; [done|]. split; [done|].
    destruct Hcalls as [Hq | (-> & Hdc & Hne & Hrow & ->)]; [by left | right].
    by rewrite Hdc.
  - destruct (process_update_not_data b u Ed) as (_ & Hud & new & Ht & Hq).
    exists new. split; [done|]. split; [by rewrite Hud | by left].
Qed.

Lemma data_check_start (name : string) :
  lower name = "start" ->
  conversation_check_update (data_collection_conv_handler env) None (Command name)
  = Some (start env (Some ("/" +:+ name))).
Proof. intros H. simpl. split_commands; [reflexivity | clash]. Qed.

Lemma data_check_cancel (name : string) :
  lower name = "cancel" ->
  conversation_check_update (data_collection_conv_handler env) (Some GET_DATA)
    (Command name)
  = Some (cancel_data_collection (Some ("/" +:+ name))).
Proof. intros H. simpl. split_commands; [reflexivity | clash]. Qed.

Lemma data_check_other_command (name : string) :
  lower name <> "cancel" ->
  conversation_check_update (data_collection_conv_handler env) (Some GET_DATA)
    (Command name) = None.
Proof. intros H. simpl. split_commands; [clash | reflexivity]. Qed.

Lemma step_start_any (b : Bot) (name : string) :
  data_conversation b = None ->
  lower name = "start" ->
  process_update env b (Command name) =
  {| world := snd (start env (Some ("/" +:+ name)) (world b));
     data_conversation := Some GET_DATA;
     search_conversation := search_conversation b |}.
Proof.
  intros H Hname.
  rewrite (process_update_data b _ (start env (Some ("/" +:+ name))));
    rewrite H; [|by apply data_check_start].
  by rewrite start_run.
Qed.

Lemma step_start (b : Bot) :
  data_conversation b = None ->
  process_update env b (Command "start") =
  {| world := snd (start env (Some "/start") (world b));
     data_conversation := Some GET_DATA;
     search_conversation := search_conversation b |}.
Proof. intros H. by apply (step_start_any b "start"). Qed.

Lemma step_text (b : Bot) (text : string) :
  data_conversation b = Some GET_DATA ->
  process_update env b (Text text) =
  {| world := snd (get_data (Some text) (world b));
     data_conversation := Some GET_DATA;
     search_conversation := search_conversation b |}.
Proof.
  intros H. rewrite (process_update_data b _ (get_data (Some text))); rewrite H;
    [|reflexivity].
  by rewrite get_data_run.
Qed.

Lemma step_button (b : Bot) (data : string) :
  data_conversation b = Some GET_DATA ->
  process_update env b (CallbackQuery data) =
  {| world := snd (data_button env data (world b));
     data_conversation :=
       next_state (Some GET_DATA) (fst (data_button env data (world b)));
     search_conversation := search_conversation b |}.
Proof.
  intros H. rewrite (process_update_data b _ (data_button env data)); rewrite H;
    reflexivity.
Qed.

Lemma step_cancel_any (b : Bot) (name : string) :
  data_conversation b = Some GET_DATA ->
  lower name = "cancel" ->
  process_update env b (Command name) =
  {| world := snd (cancel_data_collection (Some ("/" +:+ name)) (world b));
     data_conversation := None;
     search_conversation := search_conversation b |}.
Proof.
  intros H Hname.
  rewrite (process_update_data b _ (cancel_data_collection (Some ("/" +:+ name))));
    rewrite H; [reflexivity | by apply data_check_cancel].
Qed.

Lemma step_cancel_command (b : Bot) :
  data_conversation b = Some GET_DATA ->
  process_update env b (Command "cancel") =
  {| world := snd (cancel_data_collection (Some "/cancel") (world b));
     data_conversation := None;
     search_conversation := search_conversation b |}.
Proof. intros H. by apply (step_cancel_any b "cancel"). Qed.

(** An edited message in [GET_DATA]: the callback raises and the dialogue
    stays where it is.  Nothing was sent; the entries are as before, unless
    the message is an edited [/cancel], whose callback has removed them
    before it raised. *)
Lemma step_edited_in_GET_DATA (b : Bot) (u : Update) :
  data_conversation b = Some GET_DATA ->
  edited u = true ->
  data_conversation (process_update env b u) = Some GET_DATA /\
  trace (world (process_update env b u)) = trace (world b) /\
  (is_edited_command "cancel" u ->
   user_data (world (process_update env b u))
   = delete current_data (user_data (world b))) /\
  (~ is_edited_command "cancel" u ->
   user_data (world (process_update env b u)) = user_data (world b)).
Proof.
  intros Hdc Hed. destruct u as [| | |name|text]; try discriminate.
  - destruct (String.eqb_spec (lower name) "cancel") as [Hname|Hname].
    + rewrite (process_update_data b _ (cancel_data_collection None));
        rewrite Hdc; [|simpl; split_commands; [reflexivity | clash]].
      rewrite cancel_data_collection_edited. proj.
      split; [done|]. split; [done|]. split; [done|].
      intros Hno. destruct Hno. by exists name.
    + assert (Hc : conversation_check_update (data_collection_conv_handler env)
                     (data_conversation b) (EditedCommand name) = None).
      { rewrite Hdc. simpl. split_commands; [clash | reflexivity]. }
      unfold process_update. rewrite Hc.
      destruct (conversation_check_update (search_conv_handler env) _ _)
        as [callback|] eqn:Es.
      * destruct (search_callback_effects _ _ _ (world b) Es)
          as (o & w' & new & Hrun & _ & _ & _ & _ & Hraises).
        destruct (Hraises eq_refl) as [e ->].
        revert Hrun Es. destruct (search_conversation b) as [[]|]; simpl;
          split_commands; try discriminate; intros Hrun [= <-];
          rewrite ?cancel_search_edited, ?search_command_edited in Hrun |- *;
          injection Hrun as <-; proj;
          (split; [congruence|]); (split; [done|]);
          (split; [intros (n & [= <-] & Hn); congruence | done]).
      * split; [done|]. split; [done|].
        split; [intros (n & [= <-] & Hn); congruence | done].
  - rewrite (process_update_data b _ (get_data None)); rewrite Hdc; [|reflexivity].
    rewrite get_data_edited. proj.
    split; [done|]. split; [done|].
    split; [intros (n & [=] & _) | done].
Qed.

(** One update while the data collection dialogue is in [GET_DATA], an
    edited [/cancel] apart.  Either the dialogue stays there, no row is
    appended and [pendingEntries] grew by the text of the update (if it was
    a new text message); or the dialogue ends, and a row was appended only
    if the update was the "finish" button with entries pending, the row
    being all of them. *)
Lemma step_in_GET_DATA (b : Bot) (u : Update) :
  data_conversation b = Some GET_DATA ->
  ~ is_edited_command "cancel" u ->
  exists new,
    trace (world (process_update env b u)) = trace (world b) ++ new /\
    ((data_conversation (process_update env b u) = Some GET_DATA /\
      append_calls new = [] /\
      pendingEntries (user_data (world (process_update env b u)))
      = pendingEntries (user_data (world b)) ++ texts [u])
     \/
     (data_conversation (process_update env b u) = None /\
      pendingEntries (user_data (world (process_update env b u))) = [] /\
      (append_calls new = [] \/
       (u = CallbackQuery "finish_submission" /\
        pendingEntries (user_data (world b)) <> [] /\
        append_calls new = [pendingEntries (user_data (world b))])))).
Proof.
  intros Hdc Hnoedit.
  destruct (edited u) eqn:Hed.
  { destruct (step_edited_in_GET_DATA b u Hdc Hed) as (Hdc' & Ht & _ & Hud).
    exists []. rewrite app_nil_r. split; [done|]. left.
    split; [done|]. split; [done|]. rewrite (Hud Hnoedit).
    destruct u; try discriminate; simpl; by rewrite app_nil_r. }
  destruct u as [name|text|data| |]; try discriminate.
  - destruct (String.eqb_spec (lower name) "cancel") as [Hname|Hne].
    + rewrite step_cancel_any by done. rewrite cancel_data_collection_run. proj.
      eexists. split; [reflexivity|]. right.
      split; [reflexivity|]. split; [apply pendingEntries_delete|]. by left.
    + pose proof (data_check_other_command name Hne) as Hc. rewrite <- Hdc in Hc.
      destruct (process_update_not_data b _ Hc) as (-> & -> & new & -> & Hq).
      exists new. split; [reflexivity|]. left. simpl. by rewrite app_nil_r.
  - rewrite step_text by done. rewrite get_data_run. proj.
    eexists. split; [reflexivity|]. left.
    split; [reflexivity|]. split; [reflexivity|]. apply pendingEntries_insert.
  - rewrite step_button by done.
    destruct (recognised_dec data) as [[H | [H | [-> | ->]]] | Hno].
    + rewrite data_button_more_run by tauto. proj.
      eexists. split; [reflexivity|]. left. simpl. by rewrite app_nil_r.
    + rewrite data_button_more_run by tauto. proj.
      eexists. split; [reflexivity|]. left. simpl. by rewrite app_nil_r.
    + rewrite data_button_finish_run. proj.
      destruct (has_current_data (user_data (world b))) eqn:E; proj.
      * eexists. split; [reflexivity|]. right.
        split; [reflexivity|]. split; [apply pendingEntries_delete|].
        simpl. rewrite append_calls_submission.
        destruct (worksheet env); [right | by left].
        apply has_current_data_true in E as [_ E]. done.
      * eexists. split; [reflexivity|]. right.
        split; [reflexivity|]. split; [by apply has_current_data_false|]. by left.
    + rewrite data_button_cancel_run. proj.
      eexists. split; [reflexivity|]. right.
      split; [reflexivity|]. split; [apply pendingEntries_delete|]. by left.
    + rewrite data_button_other_run by done. proj.
      eexists. split; [reflexivity|]. left. simpl. by rewrite app_nil_r.
Qed.

(** One update outside the data collection dialogue that is not a new
    [/start]: the dialogue stays closed, the session is not touched and no
    row is appended. *)
Lemma step_idle (b : Bot) (u : Update) :
  data_conversation b = None ->
  ~ is_command "start" u ->
  data_conversation (process_update env b u) = None /\
  user_data (world (process_update env b u)) = user_data (world b) /\
  exists new,
    trace (world (process_update env b u)) = trace (world b) ++ new /\
    append_calls new = [].
Proof.
  intros Hdc Hno.
  destruct (conversation_check_update (data_collection_conv_handler env)
              (data_conversation b) u) as [callback|] eqn:Ed.
  - rewrite (process_update_data b u callback Ed).
    revert Ed. rewrite Hdc.
    destruct u as [name|text|data|name|text]; simpl; split_commands;
      try discriminate; intros [= <-].
    + destruct Hno. by exists name.
    + rewrite start_edited. proj. split; [done|]. split; [done|].
      exists []. by rewrite app_nil_r.
  - destruct (process_update_not_data b u Ed) as (-> & Hud & Hq). done.
Qed.

End Steps.

(** Show that a concrete update is not the command in question. *)
Ltac not_this_command :=
  let name := fresh "name" in
  let Heq := fresh "Heq" in
  let Hl := fresh "Hl" in
  intros (name & Heq & Hl);
  first [ discriminate Heq
        | injection Heq as <-; vm_compute in Hl; discriminate Hl ].

(** ** Runs of the data collection dialogue *)

Section Runs.

Context (env : Env).

Lemma process_updates_cons (b : Bot) (u : Update) (us : list Update) :
  process_updates env b (u :: us) = process_updates env (process_update env b u) us.
Proof. reflexivity. Qed.

Lemma process_updates_app (b : Bot) (us1 us2 : list Update) :
  process_updates env b (us1 ++ us2)
  = process_updates env (process_updates env b us1) us2.
Proof. apply fold_left_app. Qed.

(** Outside the dialogue, and as long as no new [/start] arrives, the
    dialogue stays closed, the session is not touched and no row is
    appended. *)
Lemma idle_stays_quiet (us : list Update) :
  forall b,
    data_conversation b = None ->
    Forall (fun u => ~ is_command "start" u) us ->
    data_conversation (process_updates env b us) = None /\
    user_data (world (process_updates env b us)) = user_data (world b) /\
    exists new,
      trace (world (process_updates env b us)) = trace (world b) ++ new /\
      append_calls new = [].
Proof.
  induction us as [|u us IH]; intros b Hdc Hno.
  - simpl. split; [done|]. split; [done|]. exists []. by rewrite app_nil_r.
  - rewrite process_updates_cons. apply Forall_cons in Hno as [Hu Hus].
    destruct (step_idle env b u Hdc Hu) as (Hdc' & Hud & n1 & Ht & Hq1).
    destruct (IH (process_update env b u) Hdc' Hus) as (Hdc2 & Hud2 & n2 & Ht2 & Hq2).
    split; [done|]. split; [congruence|].
    exists (n1 ++ n2). rewrite Ht2, Ht, app_assoc. split; [done|].
    by rewrite append_calls_app, Hq1, Hq2.
Qed.

(** Text messages sent in [GET_DATA] are all collected, in order. *)
Lemma collecting (msgs : list string) :
  forall b,
    data_conversation b = Some GET_DATA ->
    data_conversation (process_updates env b (map Text msgs)) = Some GET_DATA /\
    pendingEntries (user_data (world (process_updates env b (map Text msgs))))
    = pendingEntries (user_data (world b)) ++ msgs /\
    exists new,
      trace (world (process_updates env b (map Text msgs))) = trace (world b) ++ new /\
      append_calls new = [].
Proof.
  induction msgs as [|m msgs IH]; intros b Hdc.
  - simpl. split; [done|]. split; [by rewrite app_nil_r|].
    exists []. by rewrite app_nil_r.
  - simpl map. rewrite process_updates_cons.
    destruct (IH (process_update env b (Text m))) as (Hdc2 & Hp & n2 & Ht & Hq).
    { by rewrite step_text. }
    split; [done|]. rewrite Hp, Ht. rewrite step_text by done.
    rewrite get_data_run. proj. rewrite pendingEntries_insert.
    split; [by rewrite <- app_assoc|].
    eexists. rewrite <- app_assoc. split; [reflexivity|].
    by rewrite append_calls_app, Hq.
Qed.

End Runs.




(** C2, as the claim reads: over the run of one dialogue [append_row] is
    called at most once and never with a part of what the dialogue
    collected.  With a second chat of the same user this fails: while the
    dialogue of the first chat is open and has collected "x", a [/start]
    and "finish" in the second chat append ["x"] and empty the session;
    the first dialogue then collects "y" and its own "finish" appends
    ["y"].  Between the start and the end of that one dialogue, which
    collected "x" and "y", two rows were written, ["x"] and ["y"]. *)
Lemma rows_written_during_one_dialogue :
  let a1 := application_updates env_online initial_application first_chat_collects in
  let a2 := application_updates env_online a1 second_chat_finishes in
  let a3 := application_updates env_online a2 [ (1%Z, Text "y") ] in
  let a4 := application_updates env_online a2 first_chat_finishes in
  data_conversations a1 !! 1%Z = Some GET_DATA /\
  data_conversations a2 !! 1%Z = Some GET_DATA /\
  data_conversations a3 !! 1%Z = Some GET_DATA /\
  data_conversations a4 !! 1%Z = None /\
  append_calls (trace (app_world a4)) = [ ["x"]; ["y"] ] /\
  length (append_calls (trace (app_world a4))) > 1.
Proof.
  repeat split; try reflexivity. vm_compute. lia.
Qed.

(** C2, amended.  In every state of the bot, whatever the chats did before,
    one update makes at most one [append_row] call, and makes it only as
    the "finish" button pressed in [GET_DATA] with entries pending: the row
    is the whole of [pendingEntries] at that moment, and the press closes
    the dialogue.  When, from [GET_DATA] on, the updates are those of this
    one chat and hold no new [/start], then over the whole run either no
    call is made or exactly one is, by a "finish" press that arrives while
    the dialogue is still open; its row is not empty and is the whole of
    [pendingEntries] at that moment, and if no edited [/cancel] arrived
    before the press, that is all that the session held at the beginning
    followed by every text message received before the press. *)
Theorem one_row_per_dialogue (env : Env) (us : list Update) :
  forall b,
    (forall u,
       exists new,
         trace (world (process_update env b u)) = trace (world b) ++ new /\
         (append_calls new = [] \/
          (u = CallbackQuery "finish_submission" /\
           data_conversation b = Some GET_DATA /\
           pendingEntries (user_data (world b)) <> [] /\
           append_calls new = [pendingEntries (user_data (world b))] /\
           data_conversation (process_update env b u) = None)))
    /\
    (data_conversation b = Some GET_DATA ->
     Forall (fun u => ~ is_command "start" u) us ->
     exists new,
       trace (world (process_updates env b us)) = trace (world b) ++ new /\
       (append_calls new = [] \/
        exists pre post,
          us = pre ++ CallbackQuery "finish_submission" :: post /\
          data_conversation (process_updates env b pre) = Some GET_DATA /\
          pendingEntries (user_data (world (process_updates env b pre))) <> [] /\
          data_conversation
            (process_updates env b (pre ++ [CallbackQuery "finish_submission"])) = None /\
          append_calls new
          = [pendingEntries (user_data (world (process_updates env b pre)))] /\
          (Forall (fun u => ~ is_edited_command "cancel" u) pre ->
           pendingEntries (user_data (world (process_updates env b pre)))
           = pendingEntries (user_data (world b)) ++ texts pre))).
Proof.
  intros b. split.
  { intros u. destruct (step_effects env b u) as (new & Ht & _ & Hcalls). eauto. }
  revert b. induction us as [|u us IH]; intros b Hdc Hno.
  - exists []. simpl. rewrite app_nil_r. split; [done | by left].
  - rewrite process_updates_cons.
    apply Forall_cons in Hno as [Hstart Hno'].
    assert (Hstep : exists n1,
               trace (world (process_update env b u)) = trace (world b) ++ n1 /\
               ((data_conversation (process_update env b u) = Some GET_DATA /\
                 append_calls n1 = [] /\
                 (~ is_edited_command "cancel" u ->
                  pendingEntries (user_data (world (process_update env b u)))
                  = pendingEntries (user_data (world b)) ++ texts [u]))
                \/
                (data_conversation (process_update env b u) = None /\
                 (append_calls n1 = [] \/
                  (u = CallbackQuery "finish_submission" /\
                   pendingEntries (user_data (world b)) <> [] /\
                   append_calls n1 = [pendingEntries (user_data (world b))]))))).
    { destruct (edited u) eqn:Hed.
      - destruct (step_edited_in_GET_DATA env b u Hdc Hed) as (Hdc' & Ht & _ & Hud).
        exists []. rewrite app_nil_r. split; [done|]. left.
        split; [done|]. split; [done|]. intros Hne. rewrite (Hud Hne).
        destruct u; try discriminate; simpl; by rewrite app_nil_r.
      - assert (Hne : ~ is_edited_command "cancel" u).
        { intros (n & -> & _). discriminate. }
        destruct (step_in_GET_DATA env b u Hdc Hne) as (n1 & Ht1 & [Hstay | Hend]).
        + exists n1. split; [done|]. left.
          destruct Hstay as (? & ? & ?). done.
        + exists n1. split; [done|]. right.
          destruct Hend as (? & _ & ?). done. }
    destruct Hstep as (n1 & Ht1 & [(Hdc1 & Hq1 & Hp1) | (Hdc1 & Hcalls)]).
    + destruct (IH (process_update env b u) Hdc1 Hno') as (n2 & Ht2 & Hcalls).
      exists (n1 ++ n2). rewrite Ht2, Ht1, app_assoc. split; [done|].
      rewrite append_calls_app, Hq1. simpl.
      destruct Hcalls as [Hq2 | (pre & post & -> & Hd & Hne & Hclosed & Hrow & Hall)];
        [by left | right].
      exists (u :: pre), post.
      split; [done|]. split; [done|]. split; [done|]. split; [done|]. split; [done|].
      intros Hpre. apply Forall_cons in Hpre as [Hu Hpre].
      rewrite process_updates_cons, (Hall Hpre), (Hp1 Hu).
      by rewrite <- app_assoc, <- texts_cons.
    + destruct (idle_stays_quiet env us (process_update env b u) Hdc1 Hno')
        as (_ & _ & n2 & Ht2 & Hq2).
      exists (n1 ++ n2). rewrite Ht2, Ht1, app_assoc. split; [done|].
      rewrite append_calls_app, Hq2, app_nil_r.
      destruct Hcalls as [Hq1 | (-> & Hne & Hrow)]; [by left | right].
      exists [], us. simpl.
      split; [done|]. split; [done|]. split; [done|]. split; [done|]. split; [done|].
      intros _. by rewrite app_nil_r.
Qed.

Lemma one_row_per_dialogue_witness :
  let b := process_update env_online initial_bot (Command "start") in
  let us := [ Text "a"; CallbackQuery "add_more_data"; Text "b";
              CallbackQuery "finish_submission"; Text "c";
              CallbackQuery "finish_submission" ] in
  data_conversation b = Some GET_DATA /\
  Forall (fun u => ~ is_command "start" u) us /\
  append_calls (trace (world (process_updates env_online b us))) = [ ["a"; "b"] ] /\
  exists new,
    trace (world (process_updates env_online b us)) = trace (world b) ++ new /\
    (append_calls new = [] \/
     exists pre post,
       us = pre ++ CallbackQuery "finish_submission" :: post /\
       data_conversation (process_updates env_online b pre) = Some GET_DATA /\
       pendingEntries (user_data (world (process_updates env_online b pre))) <> [] /\
       data_conversation
         (process_updates env_online b (pre ++ [CallbackQuery "finish_submission"]))
       = None /\
       append_calls new
       = [pendingEntries (user_data (world (process_updates env_online b pre)))] /\
       (Forall (fun u => ~ is_edited_command "cancel" u) pre ->
        pendingEntries (user_data (world (process_updates env_online b pre)))
        = pendingEntries (user_data (world b)) ++ texts pre)).
Proof.
  intros b us.
  assert (Hno : Forall (fun u => ~ is_command "start" u) us).
  { repeat constructor; not_this_command. }
  split; [reflexivity|]. split; [exact Hno|]. split; [reflexivity|].
  destruct (one_row_per_dialogue env_online us b) as [_ Hrun].
  exact (Hrun eq_refl Hno).
Defined.

(** ** Cancelling *)

(** C6, as the claim reads: a cancel in either dialogue clears the pending
    entries, and a later [/start] finds none.  The [/cancel] of the search
    dialogue ends that dialogue but does not touch the session: an entry
    held there is still held, also after the next [/start]. *)
Lemma cancel_search_keeps_what_the_session_holds :
  let b' := process_update env_online searching_with_x (Command "cancel") in
  let b'' := process_update env_online b' (Command "start") in
  trace (world b') = [ReplyText "Search cancelled." None] /\
  search_conversation b' = None /\
  pendingEntries (user_data (world b')) = ["x"] /\
  data_conversation b'' = Some GET_DATA /\
  pendingEntries (user_data (world b'')) = ["x"] /\
  pendingEntries (user_data (world b'')) <> [].
Proof.
  repeat split; try reflexivity. vm_compute. discriminate.
Qed.

(** C6, amended.  While the data collection dialogue is in [GET_DATA],
    both cancel actions, the "cancel" button and a [/cancel] message, are
    taken by that dialogue: they remove ['current_data'] from the session
    (and nothing else) and close it, and they leave the search dialogue as
    it was, open if it was open; a [/start] right after that enters
    [GET_DATA] with no pending entries, and a [/search] leaves them empty.
    While the data collection dialogue is closed and the search dialogue
    waits for its query, a [/cancel] message closes the search dialogue,
    sends "Search cancelled." and leaves the session as it is. *)
Theorem cancel_closes_the_dialogue (env : Env) (b : Bot) :
  (data_conversation b = Some GET_DATA ->
   forall u,
     u = CallbackQuery "cancel_submission" \/ is_command "cancel" u ->
     let b' := process_update env b u in
     data_conversation b' = None /\
     search_conversation b' = search_conversation b /\
     user_data (world b') = delete current_data (user_data (world b)) /\
     pendingEntries (user_data (world b')) = [] /\
     data_conversation (process_update env b' (Command "start")) = Some GET_DATA /\
     pendingEntries (user_data (world (process_update env b' (Command "start")))) = [] /\
     pendingEntries (user_data (world (process_update env b' (Command "search")))) = [])
  /\
  (data_conversation b = None ->
   search_conversation b = Some RECEIVING_SEARCH_QUERY ->
   forall u,
     is_command "cancel" u ->
     let b' := process_update env b u in
     search_conversation b' = None /\
     data_conversation b' = None /\
     user_data (world b') = user_data (world b) /\
     trace (world b') = trace (world b) ++ [ReplyText "Search cancelled." None]).
Proof.
  split.
  - intros Hdc u Hu b'.
    assert (Hb' : data_conversation b' = None /\
                  search_conversation b' = search_conversation b /\
                  user_data (world b') = delete current_data (user_data (world b))).
    { subst b'. destruct Hu as [-> | (name & -> & Hname)].
      - rewrite step_button by done. rewrite data_button_cancel_run. by proj.
      - rewrite step_cancel_any by done. by rewrite cancel_data_collection_run. }
    destruct Hb' as (Hdc' & Hsc' & Hud').
    assert (Hp' : pendingEntries (user_data (world b')) = []).
    { rewrite Hud'. apply pendingEntries_delete. }
    split; [done|]. split; [done|]. split; [done|]. split; [done|].
    rewrite step_start by done. rewrite start_run. proj.
    split; [done|]. split; [done|].
    assert (Hs : ~ is_command "start" (Command "search")) by not_this_command.
    destruct (step_idle env b' _ Hdc' Hs) as (_ & -> & _). done.
  - intros Hdc Hsc u (name & -> & Hname) b'. subst b'.
    rewrite (process_update_search env b _ (cancel_search (Some ("/" +:+ name))));
      rewrite ?Hdc, ?Hsc.
    + by rewrite cancel_search_run.
    + simpl. split_commands; [|reflexivity].
      exfalso. match goal with He : lower name = _ |- _ => rewrite Hname in He end.
      discriminate.
    + simpl. split_commands; [reflexivity | clash].
Qed.

Lemma cancel_closes_the_dialogue_witness :
  let b := process_updates env_online initial_bot
             [Command "start"; Text "a"; Command "search"] in
  data_conversation b = Some GET_DATA /\
  is_command "cancel" (Command "Cancel") /\
  pendingEntries (user_data (world b)) = ["a"] /\
  pendingEntries (user_data (world (process_update env_online b (Command "Cancel")))) = [] /\
  search_conversation (process_update env_online b (Command "Cancel"))
  = Some RECEIVING_SEARCH_QUERY /\
  let s := process_update env_online initial_bot (Command "search") in
  search_conversation s = Some RECEIVING_SEARCH_QUERY /\
  search_conversation (process_update env_online s (Command "cancel")) = None.
Proof.
  intros b.
  assert (Hc : is_command "cancel" (Command "Cancel")) by (by exists "Cancel").
  split; [reflexivity|]. split; [exact Hc|]. split; [reflexivity|].
  destruct (cancel_closes_the_dialogue env_online b) as [Hdata _].
  destruct (Hdata eq_refl (Command "Cancel") (or_intror Hc))
    as (_ & Hsc & _ & Hp & _).
  split; [exact Hp|]. split; [exact Hsc|].
  intros s. split; [reflexivity|].
  destruct (cancel_closes_the_dialogue env_online s) as [_ Hsearch].
  apply (Hsearch eq_refl eq_refl (Command "cancel")). by exists "cancel".
Defined.

(** ** The session between dialogues *)

Lemma session_invariant_step (env : Env) (b : Bot) (u : Update) :
  session_invariant b -> session_invariant (process_update env b u).
Proof.
  intros [[Hdc Hnone] | [Hdc Hne]].
  - destruct u as [name|text|data|name|text].
    1: destruct (String.eqb_spec (lower name) "start") as [Hname|Hname].
    1: { right. rewrite step_start_any by done. rewrite start_run. proj.
         split; [done|]. intros l. by rewrite Hnone. }
    all: left;
      match goal with
      | |- context [process_update ?e ?b0 ?v] =>
          assert (Hs : ~ is_command "start" v)
            by (intros (n & Heq & Hl); first [discriminate Heq | congruence]);
          destruct (step_idle e b0 v Hdc Hs) as (-> & -> & _)
      end; done.
  - destruct (edited u) eqn:Hed.
    { destruct (step_edited_in_GET_DATA env b u Hdc Hed) as (Hdc' & _ & Hyes & Hno).
      right. split; [done|]. intros l.
      destruct (decide (is_Some (user_data (world (process_update env b u))
                                   !! current_data))) as [[l' Hl']|Hnot].
      - destruct u as [| | |name|text]; try discriminate.
        + destruct (String.eqb_spec (lower name) "cancel") as [Hname|Hname].
          * rewrite Hyes by (by exists name). by rewrite lookup_delete_eq.
          * rewrite Hno by (intros (n & [= <-] & Hn); congruence). apply Hne.
        + rewrite Hno by (intros (n & [=] & _)). apply Hne.
      - intros Hl. destruct Hnot. by exists l. }
    destruct u as [name|text|data| |]; try discriminate.
    + destruct (String.eqb_spec (lower name) "cancel") as [Hname|Hname].
      * left. rewrite step_cancel_any by done.
        rewrite cancel_data_collection_run. proj.
        split; [done | apply lookup_delete_eq].
      * right. pose proof (data_check_other_command env name Hname) as Hc.
        rewrite <- Hdc in Hc.
        destruct (process_update_not_data env b _ Hc) as (-> & -> & _). done.
    + right. rewrite step_text by done. rewrite get_data_run. proj.
      split; [done|]. intros l. rewrite lookup_insert_eq. intros [= <-].
      by destruct (pendingEntries (user_data (world b))).
    + rewrite step_button by done.
      destruct (recognised_dec data) as [[H | [H | [-> | ->]]] | Hno].
      * right. rewrite data_button_more_run by tauto. by proj.
      * right. rewrite data_button_more_run by tauto. by proj.
      * left. rewrite data_button_finish_run. proj.
        destruct (has_current_data (user_data (world b))) eqn:E; proj.
        -- split; [done | apply lookup_delete_eq].
        -- split; [done|]. unfold has_current_data in E.
           destruct (user_data (world b) !! current_data) as [[|x l]|] eqn:El;
             try done.
           by destruct (Hne [] eq_refl).
      * left. rewrite data_button_cancel_run. proj.
        split; [done | apply lookup_delete_eq].
      * right. rewrite data_button_other_run by done. by proj.
Qed.

(** In every state the bot reaches from its start through the updates of
    one chat, a user who is not in the data collection dialogue has no
    entries pending. *)
Lemma idle_session_is_clean (env : Env) (us : list Update) :
  data_conversation (process_updates env initial_bot us) = None ->
  user_data (world (process_updates env initial_bot us)) !! current_data = None.
Proof.
  assert (H : session_invariant (process_updates env initial_bot us)).
  { assert (H0 : session_invariant initial_bot) by (left; done).
    revert H0. generalize initial_bot.
    induction us as [|u us IH]; intros b Hb; [done|].
    rewrite process_updates_cons. apply IH. by apply session_invariant_step. }
  intros Hdc. destruct H as [[_ H] | [H _]]; [done | congruence].
Qed.

(** * Further properties of the handlers and of the wiring *)

(** ** What every callback has in common *)

(** X1. A callback chosen for a new message or for a button press never
    lets an exception out: whatever the state of the conversation, the
    world and the behaviour of the worksheet and of the search tool, it
    returns a value (the [KeyError] of [user_data['current_data']] cannot
    occur, the key being tested or created before every read).  A callback
    chosen for an edited message always raises, [update.message] being
    [None], and the conversation that chose it stays in the state it was
    in. *)
Theorem callbacks_never_raise
    (env : Env) (current : option State) (u : Update)
    (callback : M (option State)) (w : World) :
  conversation_check_update (data_collection_conv_handler env) current u = Some callback \/
  conversation_check_update (search_conv_handler env) current u = Some callback ->
  (edited u = false -> exists r, fst (callback w) = Returns r) /\
  (edited u = true ->
   exists e, fst (callback w) = Raises e /\
             next_state current (fst (callback w)) = current).
Proof.
  intros H.
  assert (Hboth : exists o, fst (callback w) = o /\
                    (edited u = false -> exists r, o = Returns r) /\
                    (edited u = true -> exists e, o = Raises e)).
  { destruct H as [H | H].
    - destruct (data_callback_effects env current u callback w H)
        as (o & w' & new & -> & _ & _ & _ & Hret & Hraise). by exists o.
    - destruct (search_callback_effects env current u callback w H)
        as (o & w' & new & -> & _ & _ & _ & Hret & Hraise). by exists o. }
  destruct Hboth as (o & -> & Hret & Hraise). split; [done|].
  intros Hed. destruct (Hraise Hed) as [e ->]. by exists e.
Qed.

Lemma callbacks_never_raise_witness :
  conversation_check_update (data_collection_conv_handler env_failing)
    (Some GET_DATA) (CallbackQuery "finish_submission")
  = Some (data_button env_failing "finish_submission") /\
  (exists r, fst (data_button env_failing "finish_submission" world_with_x) = Returns r) /\
  conversation_check_update (data_collection_conv_handler env_failing)
    (Some GET_DATA) (EditedText "a")
  = Some (get_data None) /\
  (exists e, fst (get_data None world_with_x) = Raises e).
Proof.
  split; [reflexivity|]. split.
  - apply (callbacks_never_raise env_failing (Some GET_DATA)
             (CallbackQuery "finish_submission")); [left|]; reflexivity.
  - split; [reflexivity|].
    destruct (callbacks_never_raise env_failing (Some GET_DATA) (EditedText "a")
                (get_data None) world_with_x (or_introl eq_refl)) as [_ Hraise].
    destruct (Hraise eq_refl) as (e & He & _). by exists e.
Defined.

(** X2. Whatever update arrives and whatever the state of the two
    conversations, every key of the session other than ['current_data']
    keeps its value (or stays absent). *)
Theorem only_current_data_is_touched
    (env : Env) (b : Bot) (u : Update) (k : string) :
  k <> current_data ->
  user_data (world (process_update env b u)) !! k = user_data (world b) !! k.
Proof.
  intros Hk. destruct (step_effects env b u) as (new & _ & Hframe & _).
  by apply Hframe.
Qed.

Lemma only_current_data_is_touched_witness :
  "language" <> current_data /\
  user_data (world (process_update env_online
                      {| world := world_with_language;
                         data_conversation := Some GET_DATA;
                         search_conversation := None |}
                      (Text "a"))) !! "language" = Some ["en"].
Proof.
  split; [discriminate|].
  rewrite (only_current_data_is_touched env_online _ (Text "a") "language");
    [reflexivity | discriminate].
Defined.

(** ** The states the bot can be in *)

Lemma search_state_step (env : Env) (b : Bot) (u : Update) :
  search_conversation b = None \/
  search_conversation b = Some RECEIVING_SEARCH_QUERY ->
  search_conversation (process_update env b u) = None \/
  search_conversation (process_update env b u) = Some RECEIVING_SEARCH_QUERY.
Proof.
  intros Hsc. unfold process_update.
  destruct (conversation_check_update (data_collection_conv_handler env) _ u)
    as [callback|] eqn:Ed.
  - by destruct (callback (world b)).
  - destruct (conversation_check_update (search_conv_handler env) _ u)
      as [callback|] eqn:Es; [|done].
    destruct Hsc as [Hsc | Hsc]; rewrite Hsc in Es |- *;
      destruct u as [name|text|data|name|text]; simpl in Es;
      revert Es; split_commands; try discriminate; intros [= <-];
      rewrite ?search_command_run, ?cancel_search_run, ?perform_search_run,
        ?search_command_edited, ?cancel_search_edited, ?perform_search_edited;
      proj; auto.
Qed.

(** X3. In every state the bot reaches from its start, by any sequence of
    updates in one chat: the data collection conversation is closed or in
    [GET_DATA]; while it is closed the session holds no ['current_data'],
    and while it is open a list stored there is never empty; the search
    conversation is closed or in [RECEIVING_SEARCH_QUERY], so that the state
    [ASKING_FOR_SEARCH_QUERY] defined by the module is never entered. *)
Theorem reachable_states (env : Env) (us : list Update) :
  session_invariant (process_updates env initial_bot us) /\
  (search_conversation (process_updates env initial_bot us) = None \/
   search_conversation (process_updates env initial_bot us)
   = Some RECEIVING_SEARCH_QUERY) /\
  search_conversation (process_updates env initial_bot us)
  <> Some ASKING_FOR_SEARCH_QUERY.
Proof.
  assert (H : session_invariant (process_updates env initial_bot us) /\
              (search_conversation (process_updates env initial_bot us) = None \/
               search_conversation (process_updates env initial_bot us)
               = Some RECEIVING_SEARCH_QUERY)).
  { assert (H0 : session_invariant initial_bot /\
                 (search_conversation initial_bot = None \/
                  search_conversation initial_bot = Some RECEIVING_SEARCH_QUERY))
      by (split; left; done).
    revert H0. generalize initial_bot.
    induction us as [|u us IH]; intros b [Hinv Hsc]; [done|].
    rewrite process_updates_cons. apply IH. split.
    - by apply session_invariant_step.
    - by apply search_state_step. }
  destruct H as [Hinv Hsc]. split; [done|]. split; [done|].
  destruct Hsc as [-> | ->]; discriminate.
Qed.

(** ** What closes the data collection dialogue *)

Lemma step_closes_only_on_closing (env : Env) (b : Bot) (u : Update) :
  data_conversation b = Some GET_DATA ->
  data_conversation (process_update env b u) = None ->
  closing u.
Proof.
  unfold closing. intros Hdc.
  destruct (edited u) eqn:Hed.
  { destruct (step_edited_in_GET_DATA env b u Hdc Hed) as (-> & _). discriminate. }
  destruct u as [name|text|data| |]; try discriminate.
  - destruct (String.eqb_spec (lower name) "cancel") as [Hname|Hne].
    + intros _. right. right. by exists name.
    + pose proof (data_check_other_command env name Hne) as Hc. rewrite <- Hdc in Hc.
      destruct (process_update_not_data env b _ Hc) as (-> & _). congruence.
  - rewrite step_text by done. discriminate.
  - rewrite step_button by done.
    destruct (recognised_dec data) as [[H | [H | [-> | ->]]] | Hno]; try tauto.
    + rewrite data_button_more_run by tauto. discriminate.
    + rewrite data_button_more_run by tauto. discriminate.
    + rewrite data_button_other_run by done. discriminate.
Qed.

Lemma step_closing_closes (env : Env) (b : Bot) (u : Update) :
  data_conversation b = Some GET_DATA ->
  closing u ->
  data_conversation (process_update env b u) = None.
Proof.
  intros Hdc [-> | [-> | (name & -> & Hname)]].
  - rewrite step_button by done. by rewrite data_button_finish_run.
  - rewrite step_button by done. by rewrite data_button_cancel_run.
  - by rewrite step_cancel_any.
Qed.

(** X4. The data collection dialogue in [GET_DATA] is closed by exactly
    three updates: the "finish" button, the "cancel" button and a new
    [/cancel] message, in whatever letter case.  Under any sequence of
    other updates that holds no edited [/cancel] (text, the "submit"/"add
    more" buttons, unknown buttons, other commands, also a [/search] and
    what follows it, other edited messages) the dialogue stays in
    [GET_DATA], no row is appended, and [pendingEntries] grows by exactly
    the new text messages of the sequence, in order. *)
Theorem only_finish_and_cancel_close (env : Env) (us : list Update) :
  forall b,
    data_conversation b = Some GET_DATA ->
    (forall u, data_conversation (process_update env b u) = None <-> closing u) /\
    (Forall (fun u => ~ closing u /\ ~ is_edited_command "cancel" u) us ->
     data_conversation (process_updates env b us) = Some GET_DATA /\
     pendingEntries (user_data (world (process_updates env b us)))
     = pendingEntries (user_data (world b)) ++ texts us /\
     exists new,
       trace (world (process_updates env b us)) = trace (world b) ++ new /\
       append_calls new = []).
Proof.
  induction us as [|u us IH]; intros b Hdc; split.
  - intros u. split; [by apply step_closes_only_on_closing
                     | by apply step_closing_closes].
  - intros _. simpl. split; [done|]. split; [by rewrite app_nil_r|].
    exists []. by rewrite app_nil_r.
  - intros u'. split; [by apply step_closes_only_on_closing
                      | by apply step_closing_closes].
  - intros Hall. apply Forall_cons in Hall as [[Hu Hedit] Hus].
    rewrite process_updates_cons.
    destruct (step_in_GET_DATA env b u Hdc Hedit) as (n1 & Ht1 & [Hstay | Hend]).
    + destruct Hstay as (Hdc1 & Hq1 & Hp1).
      destruct (IH (process_update env b u) Hdc1) as [_ Hrun].
      destruct (Hrun Hus) as (Hdc2 & Hp2 & n2 & Ht2 & Hq2).
      split; [done|]. split.
      * by rewrite Hp2, Hp1, <- app_assoc, <- texts_cons.
      * exists (n1 ++ n2). rewrite Ht2, Ht1, app_assoc. split; [done|].
        by rewrite append_calls_app, Hq1, Hq2.
    + destruct Hend as (Hdc1 & _). destruct Hu.
      by apply (step_closes_only_on_closing env b u).
Qed.

Lemma only_finish_and_cancel_close_witness :
  let b := process_update env_online initial_bot (Command "start") in
  let us := [ Text "a"; Command "search"; CallbackQuery "add_more_data";
              Command "START"; EditedText "z"; Text "b"; CallbackQuery "export" ] in
  data_conversation b = Some GET_DATA /\
  Forall (fun u => ~ closing u /\ ~ is_edited_command "cancel" u) us /\
  data_conversation (process_updates env_online b us) = Some GET_DATA /\
  pendingEntries (user_data (world (process_updates env_online b us))) = ["a"; "b"] /\
  data_conversation (process_update env_online b (Command "CANCEL")) = None.
Proof.
  intros b us.
  assert (Hall : Forall (fun u => ~ closing u /\ ~ is_edited_command "cancel" u) us).
  { repeat constructor; try not_this_command;
      unfold closing; intros [H | [H | H]]; try discriminate H;
      revert H; not_this_command. }
  split; [reflexivity|]. split; [exact Hall|].
  destruct (only_finish_and_cancel_close env_online us b eq_refl) as [Hstep Hrun].
  destruct (Hrun Hall) as (Hdc & Hp & _).
  split; [exact Hdc|]. split; [exact Hp|].
  apply Hstep. right. right. by exists "CANCEL".
Defined.

(** ** Which conversation gets an update *)

(** X5. The data collection conversation is asked first.  While it is in
    [GET_DATA] a text message is collected as a data point, no search is
    issued and the search conversation is left where it was, even when a
    [/search] is waiting for its query; the waiting search gets a text
    message only when the data collection dialogue is closed. *)
Theorem text_goes_to_data_collection_first (env : Env) (b : Bot) (text : string) :
  (data_conversation b = Some GET_DATA ->
   search_conversation (process_update env b (Text text)) = search_conversation b /\
   pendingEntries (user_data (world (process_update env b (Text text))))
   = pendingEntries (user_data (world b)) ++ [text] /\
   exists new,
     trace (world (process_update env b (Text text))) = trace (world b) ++ new /\
     search_calls new = [])
  /\
  (data_conversation b = None ->
   search_conversation b = Some RECEIVING_SEARCH_QUERY ->
   search_conversation (process_update env b (Text text)) = None /\
   user_data (world (process_update env b (Text text))) = user_data (world b) /\
   exists new,
     trace (world (process_update env b (Text text))) = trace (world b) ++ new /\
     search_calls new = [[text]]).
Proof.
  split.
  - intros Hdc. rewrite step_text by done. rewrite get_data_run. proj.
    split; [done|]. split; [apply pendingEntries_insert|]. by eexists.
  - intros Hdc Hsc.
    rewrite (process_update_search env b _ (perform_search env (Some text)));
      rewrite ?Hdc, ?Hsc; try reflexivity.
    rewrite perform_search_run. proj. split; [done|]. split; [done|].
    eexists. split; [reflexivity|]. simpl. f_equal.
    unfold search_effects. by destruct (google_search env _ _).
Qed.

Lemma text_goes_to_data_collection_first_witness :
  data_conversation collecting_and_searching = Some GET_DATA /\
  search_conversation (process_update env_online collecting_and_searching (Text "q"))
  = Some RECEIVING_SEARCH_QUERY /\
  pendingEntries
    (user_data (world (process_update env_online collecting_and_searching (Text "q"))))
  = ["q"].
Proof.
  split; [reflexivity|].
  destruct (text_goes_to_data_collection_first env_online collecting_and_searching "q")
    as [Hdata _].
  destruct (Hdata eq_refl) as (Hsc & Hp & _).
  split; [exact Hsc | exact Hp].
Defined.

(** X6. The conversation handlers have no re-entry: a [/start] while the
    data collection dialogue is in [GET_DATA] changes nothing at all (no
    reply, the collected entries are kept), and neither does a [/search]
    while the search dialogue waits for its query. *)
Theorem entry_commands_are_ignored_inside (env : Env) (b : Bot) :
  (data_conversation b = Some GET_DATA ->
   process_update env b (Command "start") = b) /\
  (search_conversation b = Some RECEIVING_SEARCH_QUERY ->
   process_update env b (Command "search") = b).
Proof.
  split; intros H; unfold process_update.
  - rewrite H. by destruct (search_conversation b) as [[]|].
  - rewrite H. by destruct (data_conversation b) as [[]|].
Qed.

Lemma entry_commands_are_ignored_inside_witness :
  data_conversation collecting_and_searching = Some GET_DATA /\
  search_conversation collecting_and_searching = Some RECEIVING_SEARCH_QUERY /\
  process_update env_online collecting_and_searching (Command "start")
  = collecting_and_searching /\
  process_update env_online collecting_and_searching (Command "search")
  = collecting_and_searching.
Proof.
  split; [reflexivity|]. split; [reflexivity|].
  destruct (entry_commands_are_ignored_inside env_online collecting_and_searching)
    as [Hstart Hsearch].
  split; [exact (Hstart eq_refl) | exact (Hsearch eq_refl)].
Defined.

(** X7. Outside the data collection dialogue a press on an inline button is
    dropped: no handler runs, the callback is not even answered and the bot
    is exactly as before, whatever the button and whether or not a search is
    waiting.  With both dialogues closed the same holds for a text
    message. *)
Theorem stray_updates_are_dropped (env : Env) (b : Bot) :
  data_conversation b = None ->
  (forall data, process_update env b (CallbackQuery data) = b) /\
  (search_conversation b = None ->
   forall text, process_update env b (Text text) = b).
Proof.
  intros Hdc. split.
  - intros data. unfold process_update. rewrite Hdc.
    by destruct (search_conversation b) as [[]|].
  - intros Hsc text. unfold process_update. by rewrite Hdc, Hsc.
Qed.

Lemma stray_updates_are_dropped_witness :
  data_conversation searching_with_x = None /\
  process_update env_online searching_with_x (CallbackQuery "finish_submission")
  = searching_with_x.
Proof.
  split; [reflexivity|].
  apply (stray_updates_are_dropped env_online searching_with_x). reflexivity.
Defined.

(** ** Searching *)

(** X8. When the search returns no result set, or a first result set
    without records (whatever the later result sets hold), [perform_search]
    acknowledges the query, searches once, replies exactly "No search
    results found." and ends; the session is untouched and no row is
    appended. *)
Theorem search_without_results
    (env : Env) (search_query : string) (w : World)
    (search_results : list SearchResults) :
  google_search env
    (trace w ++ [ReplyText ("Searching for '" +:+ search_query +:+ "'...") None])
    [search_query] = Returns search_results ->
  search_results = [] \/
  (exists first rest, search_results = first :: rest /\ results first = []) ->
  perform_search env (Some search_query) w =
  (Returns (Some END),
   after w (user_data w)
     [ ReplyText ("Searching for '" +:+ search_query +:+ "'...") None;
       GoogleSearch [search_query];
       ReplyText "No search results found." None ]).
Proof.
  intros Hsearch Hempty. rewrite perform_search_run.
  unfold search_effects. rewrite Hsearch.
  destruct Hempty as [-> | (first & rest & -> & Hfirst)]; [reflexivity|].
  unfold render_reply. by rewrite Hfirst.
Qed.

Lemma search_without_results_witness :
  perform_search env_nothing_found (Some "q") world_with_x =
  (Returns (Some END),
   after world_with_x (user_data world_with_x)
     [ ReplyText "Searching for 'q'..." None;
       GoogleSearch ["q"];
       ReplyText "No search results found." None ]).
Proof.
  apply (search_without_results env_nothing_found "q" world_with_x
           [ {| results := [] |}; {| results := [record_A_u] |} ]).
  - reflexivity.
  - right. by exists {| results := [] |}, [ {| results := [record_A_u] |} ].
Defined.

(** X9. When the first result set holds records, the reply of
    [perform_search] is the heading "Search Results:", a blank line, and
    then for every record of that set, in the order received, the lines
    "Title: ..", "URL: ..", "Snippet: .." and a blank line, a field that is
    [None] or empty being written "N/A".  Only the first result set is
    rendered; the others are not looked at. *)
Theorem search_reply_lists_the_first_result_set
    (env : Env) (search_query : string) (w : World)
    (first : SearchResults) (rest : list SearchResults) :
  google_search env
    (trace w ++ [ReplyText ("Searching for '" +:+ search_query +:+ "'...") None])
    [search_query] = Returns (first :: rest) ->
  results first <> [] ->
  perform_search env (Some search_query) w =
  (Returns (Some END),
   after w (user_data w)
     [ ReplyText ("Searching for '" +:+ search_query +:+ "'...") None;
       GoogleSearch [search_query];
       ReplyText ("Search Results:" +:+ nl +:+ nl +:+ render_blocks (results first))
         None ]).
Proof.
  intros Hsearch Hfirst. rewrite perform_search_run.
  unfold search_effects. rewrite Hsearch.
  by rewrite render_reply_in_order.
Qed.

Lemma search_reply_lists_the_first_result_set_witness :
  perform_search
    {| worksheet := None;
       google_search := fun _ _ =>
         Returns [ {| results := [ record_A_u;
                                   {| source_title := Some EmptyString;
                                      url := None;
                                      snippet := Some "s" |} ] |};
                   {| results := [record_A_u] |} ];
       mention_html := "Ada" |}
    (Some "q") empty_world =
  (Returns (Some END),
   after empty_world ∅
     [ ReplyText "Searching for 'q'..." None;
       GoogleSearch ["q"];
       ReplyText ("Search Results:" +:+ nl +:+ nl
                  +:+ "Title: A" +:+ nl +:+ "URL: u" +:+ nl +:+ "Snippet: N/A" +:+ nl +:+ nl
                  +:+ "Title: N/A" +:+ nl +:+ "URL: N/A" +:+ nl +:+ "Snippet: s" +:+ nl +:+ nl)
         None ]).
Proof.
  apply (search_reply_lists_the_first_result_set _ "q" empty_world
           {| results := [ record_A_u;
                           {| source_title := Some EmptyString;
                              url := None;
                              snippet := Some "s" |} ] |}
           [ {| results := [record_A_u] |} ]).
  - reflexivity.
  - discriminate.
Defined.

(** X10. The search dialogue takes one query.  From a bot with both
    dialogues closed, [/search] followed by a text message issues exactly
    one search, for that text alone, and closes the dialogue whatever the
    search tool answers (result, nothing, or an exception); the session is
    untouched, no row is appended, and a text message sent after that is
    dropped. *)
Theorem search_is_one_shot (env : Env) (b : Bot) (search_query : string) :
  data_conversation b = None ->
  search_conversation b = None ->
  let b' := process_updates env b [Command "search"; Text search_query] in
  search_conversation b' = None /\
  data_conversation b' = None /\
  user_data (world b') = user_data (world b) /\
  (exists new,
     trace (world b') = trace (world b) ++ new /\
     search_calls new = [[search_query]] /\
     append_calls new = []) /\
  forall text, process_update env b' (Text text) = b'.
Proof.
  intros Hdc Hsc b'. subst b'. unfold process_updates. simpl fold_left.
  rewrite (process_update_search env b _ (search_command (Some "/search")));
    rewrite ?Hdc, ?Hsc; try reflexivity.
  rewrite search_command_run. proj.
  rewrite (process_update_search env _ _ (perform_search env (Some search_query)));
    try reflexivity.
  rewrite perform_search_run. proj.
  split; [done|]. split; [done|]. split; [done|]. split.
  - eexists. rewrite <- app_assoc. split; [reflexivity|].
    unfold search_effects. by destruct (google_search env _ _).
  - intros text. reflexivity.
Qed.

Lemma search_is_one_shot_witness :
  let b' := process_updates env_failing initial_bot [Command "search"; Text "q"] in
  search_conversation b' = None /\
  search_calls (trace (world b')) = [["q"]] /\
  process_update env_failing b' (Text "again") = b'.
Proof.
  intros b'.
  destruct (search_is_one_shot env_failing initial_bot "q" eq_refl eq_refl)
    as (Hsc & _ & _ & (new & Ht & Hs & _) & Hdrop).
  split; [exact Hsc|]. split.
  - fold b' in Ht. rewrite Ht. exact Hs.
  - exact (Hdrop "again").
Defined.

(** ** One dialogue after the other *)

(** One whole dialogue, started outside the dialogue on a session without
    entries, ends outside the dialogue on a session without entries. *)
Lemma dialogue_round (env : Env) (b : Bot) (msgs : list string) :
  data_conversation b = None ->
  user_data (world b) !! current_data = None ->
  data_conversation (process_updates env b (dialogue msgs)) = None /\
  user_data (world (process_updates env b (dialogue msgs))) !! current_data = None /\
  exists new,
    trace (world (process_updates env b (dialogue msgs))) = trace (world b) ++ new /\
    append_calls new =
    match msgs, worksheet env with
    | _ :: _, Some _ => [msgs]
    | _, _ => []
    end.
Proof.
  intros Hdc Hnone. unfold dialogue.
  rewrite process_updates_cons, process_updates_app.
  rewrite step_start by done. rewrite start_run. proj.
  set (b1 := {| world := _; data_conversation := Some GET_DATA |}).
  destruct (collecting env msgs b1 eq_refl) as (Hdc2 & Hp & n2 & Ht & Hq).
  assert (Hp' : pendingEntries
                  (user_data (world (process_updates env b1 (map Text msgs)))) = msgs).
  { rewrite Hp. subst b1. proj. unfold pendingEntries. by rewrite Hnone. }
  destruct msgs as [|m msgs].
  - subst b1. simpl process_updates. rewrite step_button by done.
    rewrite data_button_finish_run. proj.
    unfold has_current_data. rewrite Hnone. proj.
    split; [done|]. split; [done|].
    eexists. rewrite <- app_assoc. split; reflexivity.
  - set (b2 := process_updates env b1 (map Text (m :: msgs))) in *.
    simpl process_updates. rewrite step_button by done.
    rewrite data_button_finish_run.
    rewrite has_current_data_pending by (by rewrite Hp'). proj.
    split; [done|]. split; [apply lookup_delete_eq|].
    rewrite Ht. subst b1. proj.
    eexists. rewrite <- !app_assoc. split; [reflexivity|].
    rewrite !append_calls_app, Hq. simpl.
    rewrite append_calls_submission, Hp'. by destruct (worksheet env).
Qed.

(** Any number of whole dialogues in a row, from a session without
    entries. *)
Lemma dialogue_rounds (env : Env) (rounds : list (list string)) :
  forall b,
    data_conversation b = None ->
    user_data (world b) !! current_data = None ->
    data_conversation (process_updates env b (concat (map dialogue rounds))) = None /\
    user_data (world (process_updates env b (concat (map dialogue rounds))))
      !! current_data = None /\
    exists new,
      trace (world (process_updates env b (concat (map dialogue rounds))))
      = trace (world b) ++ new /\
      append_calls new =
      match worksheet env with
      | Some _ => submitted_rows rounds
      | None => []
      end.
Proof.
  induction rounds as [|msgs rounds IH]; intros b Hdc Hnone.
  - simpl. split; [done|]. split; [done|].
    exists []. rewrite app_nil_r. split; [done|]. by destruct (worksheet env).
  - change (concat (map dialogue (msgs :: rounds)))
      with (dialogue msgs ++ concat (map dialogue rounds)).
    rewrite process_updates_app.
    destruct (dialogue_round env b msgs Hdc Hnone) as (Hdc1 & Hnone1 & n1 & Ht1 & Hq1).
    destruct (IH _ Hdc1 Hnone1) as (Hdc2 & Hnone2 & n2 & Ht2 & Hq2).
    split; [done|]. split; [done|].
    exists (n1 ++ n2). rewrite Ht2, Ht1, app_assoc. split; [done|].
    rewrite append_calls_app, Hq1, Hq2.
    destruct (worksheet env); destruct msgs; reflexivity.
Qed.

(** X11. Dialogues run one after the other do not leak into each other.
    Starting outside the dialogue on a session without entries, let the user
    go through any number of dialogues, each of them [/start], some text
    messages and "finish".  With a connected worksheet the rows appended are
    exactly the message lists of the dialogues that collected something, one
    row per dialogue, in the order of the dialogues; without a worksheet
    nothing is appended.  The bot ends outside the dialogue, without
    entries. *)
Theorem dialogues_append_their_own_rows (env : Env) (rounds : list (list string)) :
  forall b,
    data_conversation b = None ->
    user_data (world b) !! current_data = None ->
    let b' := process_updates env b (concat (map dialogue rounds)) in
    data_conversation b' = None /\
    user_data (world b') !! current_data = None /\
    exists new,
      trace (world b') = trace (world b) ++ new /\
      append_calls new =
      match worksheet env with
      | Some _ => submitted_rows rounds
      | None => []
      end.
Proof.
  intros b Hdc Hnone. cbn zeta. by apply dialogue_rounds.
Qed.

Lemma dialogues_append_their_own_rows_witness :
  data_conversation initial_bot = None /\
  user_data (world initial_bot) !! current_data = None /\
  append_calls
    (trace (world (process_updates env_online initial_bot
                     (concat (map dialogue [ ["a"; "b"]; []; ["c"] ])))))
  = [ ["a"; "b"]; ["c"] ].
Proof.
  split; [reflexivity|]. split; [reflexivity|].
  destruct (dialogues_append_their_own_rows env_online [ ["a"; "b"]; []; ["c"] ]
              initial_bot eq_refl eq_refl) as (_ & _ & new & Ht & Hrows).
  rewrite Ht. exact Hrows.
Defined.

(** X12. Entries of a cancelled dialogue are never written.  Take the
    dialogue in [GET_DATA] with whatever entries, cancel it by the button or
    by [/cancel], and let any number of whole dialogues follow: the rows
    appended are those of the dialogues that followed and nothing else. *)
Theorem cancelled_entries_are_never_appended
    (env : Env) (b : Bot) (u : Update) (rounds : list (list string)) :
  data_conversation b = Some GET_DATA ->
  u = CallbackQuery "cancel_submission" \/ u = Command "cancel" ->
  exists new,
    trace (world (process_updates env b (u :: concat (map dialogue rounds))))
    = trace (world b) ++ new /\
    append_calls new =
    match worksheet env with
    | Some _ => submitted_rows rounds
    | None => []
    end.
Proof.
  intros Hdc Hu. rewrite process_updates_cons.
  assert (H1 : data_conversation (process_update env b u) = None /\
               user_data (world (process_update env b u)) !! current_data = None /\
               exists n1, trace (world (process_update env b u)) = trace (world b) ++ n1 /\
                          append_calls n1 = []).
  { destruct Hu as [-> | ->].
    - rewrite step_button by done. rewrite data_button_cancel_run. proj.
      split; [done|]. split; [apply lookup_delete_eq|]. by eexists.
    - rewrite step_cancel_command by done. rewrite cancel_data_collection_run. proj.
      split; [done|]. split; [apply lookup_delete_eq|]. by eexists. }
  destruct H1 as (Hdc1 & Hnone1 & n1 & Ht1 & Hq1).
  destruct (dialogue_rounds env rounds _ Hdc1 Hnone1) as (_ & _ & n2 & Ht2 & Hq2).
  exists (n1 ++ n2). rewrite Ht2, Ht1, app_assoc. split; [done|].
  by rewrite append_calls_app, Hq1, Hq2.
Qed.

Lemma cancelled_entries_are_never_appended_witness :
  let b := process_updates env_online initial_bot
             [Command "start"; Text "secret"] in
  data_conversation b = Some GET_DATA /\
  pendingEntries (user_data (world b)) = ["secret"] /\
  append_calls
    (trace (world (process_updates env_online b
                     (Command "cancel" :: concat (map dialogue [ ["a"] ])))))
  = [ ["a"] ].
Proof.
  intros b. split; [reflexivity|]. split; [reflexivity|].
  destruct (cancelled_entries_are_never_appended env_online b (Command "cancel")
              [ ["a"] ] eq_refl (or_intror eq_refl)) as (new & Ht & Hrows).
  rewrite Ht, append_calls_app. exact Hrows.
Defined.
